(** * Corintick serialization: a shallow embedding of
      [corintick/serialization.py] and the properties of its write path
      ([_make_bson_column], [_make_bson_doc], [make_bson_docs]) and read path
      ([_build_dataframe], [build_dataframe]).

    Conventions of the embedding.
    - A NumPy array is its dtype name and its elements; an element is the
      integer payload of the cell (for a [datetime64[ns]] index, nanoseconds
      since the epoch).  Tables are backed by NumPy arrays: [col.values] of a
      column is the column's own array.  Extension dtypes of pandas
      (time-zone aware, categorical) and [NaT] index entries are outside the
      model.
    - A DataFrame is column oriented, as pandas stores it: one array for the
      index and an ordered list of labelled arrays.  A label is a [str] or
      another object, which the module reads through [str()] only.
    - A frame in which several columns carry the label "dtype" once the
      labels are renamed is outside the model: pandas resolves the
      attribute [dtype] of the selection to those columns, and
      [make_columns] marks the case with [OutsideModel].
    - Python exceptions are the constructors of [exn]; a function that may
      raise returns a [result].
    - Python and NumPy floats are modelled by exact rationals extended with
      the two infinities and NaN ([pyfloat]); rounding of binary64 is not
      modelled.  The comparison of a byte count with 0.95 * 2^24 comes out
      as in binary64; a recomputed size, and the number of sections
      computed from it, can differ from binary64 by rounding.
    - The third-party functions the module calls ([np.save], [np.load],
      [lz4.block.compress], [lz4.block.decompress], [hashlib.sha1],
      [dtype.itemsize], the argsort behind [sort_index], the dtype promotion
      of [pd.concat]) are the operations of the class [Libraries]; what the
      proofs assume about them is stated in [CodecLaws], [NoPickle],
      [SortLaws] and [ConcatLaws].
    - [logger] calls have no effect on results and are omitted. *)

From Stdlib Require Import ZArith QArith Qround.
From Stdlib.Strings Require Import Byte Ascii String.
From stdpp Require Import base list gmap strings sorting.

#[local] Unset Default Proof Using.
#[local] Open Scope Z_scope.

(** ** Exceptions and results *)

(** NumPy and Python floats: exact rationals, the infinities and NaN. *)
Inductive pyfloat : Type :=
| Fin (q : Q)
| PInf
| NInf
| NaN.

Inductive exn : Type :=
| ValueError
| IndexError
| KeyError
| AttributeError
| AssertionError
| OverflowError
| RecursionError
| NameError
| OutsideModel
    (* not an exception: the call leaves the model, see [make_columns] *)
| DecodeError
    (* whatever lz4.block.decompress or np.load raise on a blob they reject *)
| InvalidBSON (binary_size : Z) (compression_ratio : pyfloat)
    (* bson.InvalidBSON(msg, compression_ratio); msg is the formatted
       binary_size and compression_ratio *).

Inductive result (A : Type) : Type :=
| Ok (a : A)
| Err (e : exn).
Arguments Ok {A} a.
Arguments Err {A} e.

Definition rbind {A B} (m : result A) (k : A → result B) : result B :=
  match m with
  | Ok a => k a
  | Err e => Err e
  end.

Notation "x <~ m ;; k" := (rbind m (λ x, k))
  (at level 100, m at next level, right associativity, only parsing).

Fixpoint rmap {A B} (f : A → result B) (l : list A) : result (list B) :=
  match l with
  | [] => Ok []
  | a :: l' => b <~ f a ;; bs <~ rmap f l' ;; Ok (b :: bs)
  end.

(** ** Float arithmetic as NumPy performs it (no ZeroDivisionError) *)

Definition Qlt_bool (x y : Q) : bool := negb (Qle_bool y x).

Definition fdiv (a b : pyfloat) : pyfloat :=
  match a, b with
  | NaN, _ | _, NaN => NaN
  | Fin x, Fin y =>
      if Qeq_bool y 0 then
        if Qlt_bool 0 x then PInf else if Qlt_bool x 0 then NInf else NaN
      else Fin (x / y)
  | Fin _, (PInf | NInf) => Fin 0
  | PInf, Fin y => if Qle_bool 0 y then PInf else NInf
  | NInf, Fin y => if Qle_bool 0 y then NInf else PInf
  | (PInf | NInf), (PInf | NInf) => NaN
  end.

(** [a > b] *)
Definition fgt (a b : pyfloat) : bool :=
  match a, b with
  | Fin x, Fin y => Qlt_bool y x
  | PInf, (Fin _ | NInf) => true
  | Fin _, NInf => true
  | _, _ => false
  end.

Definition np_ceil (a : pyfloat) : pyfloat :=
  match a with
  | Fin q => Fin (inject_Z (Qceiling q))
  | _ => a
  end.

(** [int(x)] *)
Definition py_int (a : pyfloat) : result Z :=
  match a with
  | Fin q => Ok (if Qle_bool 0 q then Qfloor q else Qceiling q)
  | PInf | NInf => Err OverflowError
  | NaN => Err ValueError
  end.

Definition of_int (z : Z) : pyfloat := Fin (inject_Z z).

(** ** Data *)

Definition bytes : Type := list Byte.byte.

Record ndarray : Type := mk_ndarray {
  arr_dtype : string;
  arr_values : list Z;
}.

(** A column label: a [str], or another object (an integer, a float, a
    tuple), given by the text that [str()] returns for it.  The module reads
    a label of the caller's frame through [str(x)] only. *)
Inductive label : Type :=
| Str (s : string)
| Obj (repr : string).

Definition py_str (x : label) : string :=
  match x with
  | Str s => s
  | Obj repr => repr
  end.

#[global] Instance label_eq_dec : EqDecision label.
Proof. solve_decision. Defined.

Record DataFrame : Type := mk_DataFrame {
  df_index : ndarray;
  df_columns : list (label * ndarray);
}.

(** The dictionary returned by [_make_bson_column]. *)
Record BsonColumn : Type := mk_BsonColumn {
  col_data : bytes;
  col_dtype : string;
  col_sha1 : bytes;
  col_size : Z;
}.

(** Values a caller may attach as metadata. *)
Inductive bson_value : Type :=
| BInt (z : Z)
| BStr (s : string)
| BBool (b : bool).

(** A [SON] is an insertion-ordered dictionary. *)
Definition SON (V : Type) : Type := list (string * V).

(** The document returned by [_make_bson_doc]. *)
Record BsonDoc : Type := mk_BsonDoc {
  doc_uid : string;
  doc_start : Z;
  doc_end : Z;
  doc_metadata : gmap string bson_value;
  doc_index : BsonColumn;
  doc_columns : SON BsonColumn;
}.

(** [d[k] = v] on an ordered dictionary: overwrite in place or append. *)
Fixpoint son_set {V} (d : SON V) (k : string) (v : V) : SON V :=
  match d with
  | [] => [(k, v)]
  | (k', v') :: d' =>
      if String.eqb k' k then (k, v) :: d' else (k', v') :: son_set d' k v
  end.

(** [d[k]] *)
Fixpoint son_get {V} (d : SON V) (k : string) : result V :=
  match d with
  | [] => Err KeyError
  | (k', v') :: d' => if String.eqb k' k then Ok v' else son_get d' k
  end.

Definition son_keys {V} (d : SON V) : list string := d.*1.
Definition son_values {V} (d : SON V) : list V := d.*2.

(** ** The libraries *)

Class Libraries : Type := {
  np_save : ndarray → bytes;
  np_load : bytes → option ndarray;
  itemsize : string → Z;
  argsort : list Z → list nat;
  lz4_compress : bytes → bytes;
  lz4_decompress : bytes → option bytes;
  hashlib_sha1 : bytes → bytes;
  concat_dtype : list (option string) → string;
}.

(** ** Constants *)

Definition MAX_BSON_SIZE : Z := 2 ^ 24.

Definition datetime64_ns : string := "datetime64[ns]".

(** The bit pattern of the float64 NaN that pandas writes in missing cells. *)
Definition nan_cell : Z := 0x7FF8000000000000.

(** ** pandas and NumPy operations on the data *)

Definition nrows (df : DataFrame) : nat := length (arr_values (df_index df)).

Definition is_DatetimeIndex (idx : ndarray) : bool :=
  String.eqb (arr_dtype idx) datetime64_ns.

(** [arr.take(p)] *)
Definition np_take (p : list nat) (arr : ndarray) : ndarray :=
  {| arr_dtype := arr_dtype arr;
     arr_values := map (λ i, nth i (arr_values arr) 0) p |}.

(** [df.take(p)]: the rows at positions [p], in that order. *)
Definition df_take (p : list nat) (df : DataFrame) : DataFrame :=
  {| df_index := np_take p (df_index df);
     df_columns := map (λ nc, (nc.1, np_take p nc.2)) (df_columns df) |}.

(** [arr[st:st+n]] and the same on the rows of a frame. *)
Definition np_slice (st n : nat) (arr : ndarray) : ndarray :=
  {| arr_dtype := arr_dtype arr;
     arr_values := take n (drop st (arr_values arr)) |}.

Definition df_slice (st n : nat) (df : DataFrame) : DataFrame :=
  {| df_index := np_slice st n (df_index df);
     df_columns := map (λ nc, (nc.1, np_slice st n nc.2)) (df_columns df) |}.

(** [re.sub('\.', '', str(x))] *)
Fixpoint remove_dots (s : string) : string :=
  match s with
  | EmptyString => EmptyString
  | String c s' =>
      if Ascii.eqb c "."%char then remove_dots s' else String c (remove_dots s')
  end.

(** [lambda x: re.sub('\.', '', str(x))]: the text, and the text as a
    label. *)
Definition normalized_name (x : label) : string := remove_dots (py_str x).

Definition normalize (x : label) : label := Str (normalized_name x).

(** [df.rename(columns=f)] *)
Definition df_rename (f : label → label) (df : DataFrame) : DataFrame :=
  {| df_index := df_index df;
     df_columns := map (λ nc, (f nc.1, nc.2)) (df_columns df) |}.

(** [df[col]]: every column carrying the label; one is a Series, several
    are a DataFrame. *)
Definition df_getitem (df : DataFrame) (col : label) : list ndarray :=
  (filter (λ nc, nc.1 = col) (df_columns df)).*2.

Definition df_column_names (df : DataFrame) : list label := (df_columns df).*1.

Definition sum_Z (l : list Z) : Z := foldr Z.add 0 l.

Section Code.
Context {L : Libraries}.

Definition nbytes (arr : ndarray) : Z :=
  itemsize (arr_dtype arr) * Z.of_nat (length (arr_values arr)).

(** [df.memory_usage().sum()] *)
Definition memory_usage (df : DataFrame) : Z :=
  nbytes (df_index df) + sum_Z (map (λ nc, nbytes nc.2) (df_columns df)).

(** [df.sort_index(ascending=True)], default [kind]. *)
Definition sort_index (df : DataFrame) : DataFrame :=
  df_take (argsort (arr_values (df_index df))) df.

(** [np.array_split(df, indices_or_sections)] for a scalar argument. *)
Fixpoint split_sections (df : DataFrame) (st : nat) (sizes : list nat)
  : list DataFrame :=
  match sizes with
  | [] => []
  | n :: sizes' => df_slice st n df :: split_sections df (st + n)%nat sizes'
  end.

Definition np_array_split (df : DataFrame) (indices_or_sections : pyfloat)
  : result (list DataFrame) :=
  Nsections <~ py_int indices_or_sections ;;
  if Nsections <=? 0 then Err ValueError
  else
    let Ntotal := Z.of_nat (nrows df) in
    let Neach_section := Ntotal / Nsections in
    let extras := Ntotal mod Nsections in
    let section_sizes :=
      replicate (Z.to_nat extras) (Z.to_nat (Neach_section + 1)) ++
      replicate (Z.to_nat (Nsections - extras)) (Z.to_nat Neach_section) in
    Ok (split_sections df 0 section_sizes).

(** *** serialization.py *)

Definition _serialize_array (arr : ndarray) : bytes :=
  lz4_compress (np_save arr).

Definition _deserialize_array (data : bytes) : result ndarray :=
  match lz4_decompress data with
  | None => Err DecodeError
  | Some raw =>
      match np_load raw with
      | None => Err DecodeError
      | Some arr => Ok arr
      end
  end.

Definition _make_bson_column (col : ndarray) : BsonColumn :=
  let data := _serialize_array col in
  let sha1 := hashlib_sha1 data in
  let dtype := arr_dtype col in
  let size := Z.of_nat (length data) in
  {| col_data := data; col_dtype := dtype; col_sha1 := sha1; col_size := size |}.

(** The loop [for col in df.columns: columns[col] = _make_bson_column(df[col])].
    The labels are those of the renamed frame, which are [str]: the key of
    [columns] is the label's text.  When the label is carried by several
    columns [df[col]] is a DataFrame, which has no attribute [dtype]:
    [str(col.dtype)] raises AttributeError.  The one exception is the label
    "dtype" itself, which pandas resolves to the selected columns; what the
    module does with it is left outside the model. *)
Fixpoint make_columns (df : DataFrame) (cols : list label)
    (columns : SON BsonColumn) : result (SON BsonColumn) :=
  match cols with
  | [] => Ok columns
  | col :: cols' =>
      match df_getitem df col with
      | [series] =>
          make_columns df cols'
            (son_set columns (py_str col) (_make_bson_column series))
      | [] => Err KeyError
      | _ =>
          if bool_decide (col = Str "dtype") then Err OutsideModel
          else Err AttributeError
      end
  end.

Definition size_threshold : Q := (95 # 100) * inject_Z MAX_BSON_SIZE.

Definition _make_bson_doc (uid : string) (df : DataFrame)
    (metadata : gmap string bson_value) : result BsonDoc :=
  if negb (is_DatetimeIndex (df_index df)) then Err ValueError
  else
    let mem_usage := memory_usage df in
    let df := sort_index df in
    let df := df_rename normalize df in
    let index := _make_bson_column (df_index df) in
    columns <~ make_columns df (df_column_names df) [] ;;
    let nrows := Z.of_nat (nrows df) in
    sizes <~ rmap (λ col, c <~ son_get columns (py_str col) ;; Ok (col_size c))
               (df_column_names df) ;;
    let binary_size := sum_Z sizes in
    let binary_size := binary_size + col_size index in
    let compression_ratio := fdiv (of_int binary_size) (of_int mem_usage) in
    if fgt (of_int binary_size) (Fin size_threshold) then
      Err (InvalidBSON binary_size compression_ratio)
    else
      let add_meta : gmap string bson_value :=
        <["nrows" := BInt nrows]> (<["binary_size" := BInt binary_size]> ∅) in
      let metadata := add_meta ∪ metadata in
      match arr_values (df_index df) with
      | [] => Err IndexError
      | first :: _ =>
          Ok {| doc_uid := uid;
                doc_start := first;
                doc_end := List.last (arr_values (df_index df)) first;
                doc_metadata := metadata;
                doc_index := index;
                doc_columns := columns |}
      end.

Definition split_dataframes (large_df : DataFrame) (size : pyfloat)
  : result (list DataFrame) :=
  let mem_usage := memory_usage large_df in
  let split_num := np_ceil (fdiv (of_int mem_usage) size) in
  np_array_split large_df split_num.

(** The [for sub_df in ...] loop of [make_bson_docs]; [retry] is the
  recursive call [make_bson_docs(uid, df, metadata, max_size=...)]. *)
Fixpoint docs_loop (retry : pyfloat → result (list BsonDoc))
    (uid : string) (metadata : gmap string bson_value)
    (sub_dfs : list DataFrame) (docs : list BsonDoc)
  : result (list BsonDoc) :=
  match sub_dfs with
  | [] => Ok docs
  | sub_df :: rest =>
      match _make_bson_doc uid sub_df metadata with
      | Ok doc => docs_loop retry uid metadata rest (docs ++ [doc])
      | Err (InvalidBSON _ ratio) =>
          let new_max_size :=
            fdiv (Fin ((95 # 100) * inject_Z MAX_BSON_SIZE)) ratio in
          if fgt new_max_size (Fin (inject_Z MAX_BSON_SIZE * (8 # 10)))
          then retry new_max_size
          else Err AssertionError
      | Err e => Err e
      end
  end.

(** [depth] bounds the recursion as the interpreter's recursion limit
  does. *)
Fixpoint make_bson_docs (depth : nat) (uid : string) (df : DataFrame)
    (metadata : gmap string bson_value) (max_size : pyfloat)
  : result (list BsonDoc) :=
  match depth with
  | O => Err RecursionError
  | S depth' =>
      sub_dfs <~ split_dataframes df max_size ;;
      docs_loop (make_bson_docs depth' uid df metadata) uid metadata sub_dfs []
  end.

Definition default_max_size : pyfloat := of_int (MAX_BSON_SIZE * 4).

(** [OrderedDict(zip(names, columns))] *)
Definition ordered_dict {V} (items : list (string * V)) : SON V :=
  foldl (λ d kv, son_set d kv.1 kv.2) [] items.

(** One array of the dictionary against an index of length [n]: an array of
    that length is taken as it is, an array of one element is repeated to
    that length, any other length is refused. *)
Definition sanitize_array (n : nat) (arr : ndarray) : result ndarray :=
  if Nat.eqb (length (arr_values arr)) n then Ok arr
  else
    match arr_values arr with
    | [x] => Ok {| arr_dtype := arr_dtype arr; arr_values := replicate n x |}
    | _ => Err ValueError
    end.

(** [pd.DataFrame(index=index, data=data)] for a dictionary of arrays. *)
Definition pd_DataFrame (index : ndarray) (data : SON ndarray)
  : result DataFrame :=
  columns <~ rmap (λ kv, arr <~ sanitize_array (length (arr_values index)) kv.2 ;;
                         Ok (Str kv.1, arr)) data ;;
  Ok {| df_index := index; df_columns := columns |}.

Definition _build_dataframe (doc : BsonDoc) : result DataFrame :=
  index <~ _deserialize_array (col_data (doc_index doc)) ;;
  columns <~ rmap (λ col, _deserialize_array (col_data col))
               (son_values (doc_columns doc)) ;;
  let names := son_keys (doc_columns doc) in
  pd_DataFrame index (ordered_dict (zip names columns)).

(** [pd.concat(frames)]: rows are stacked; the columns are the union of
  the frames' columns in order of first appearance, a frame that lacks
  a column contributes NaN cells. *)
Fixpoint union_names (acc : list label) (names : list label) : list label :=
  match names with
  | [] => acc
  | n :: names' =>
      union_names (if decide (n ∈ acc) then acc else acc ++ [n]) names'
  end.

Definition lookup_column (df : DataFrame) (name : label) : option ndarray :=
  head (df_getitem df name).

Definition concat_column (frames : list DataFrame) (name : label) : ndarray :=
  {| arr_dtype :=
       concat_dtype (map (λ df, arr_dtype <$> lookup_column df name) frames);
     arr_values :=
       concat (map (λ df, match lookup_column df name with
                          | Some arr => arr_values arr
                          | None => replicate (nrows df) nan_cell
                          end) frames) |}.

Definition pd_concat (frames : list DataFrame) : result DataFrame :=
  match frames with
  | [] => Err ValueError
  | _ :: _ =>
      let names := union_names [] (concat (map df_column_names frames)) in
      Ok {| df_index :=
              {| arr_dtype :=
                   concat_dtype (map (λ df, Some (arr_dtype (df_index df))) frames);
                 arr_values :=
                   concat (map (λ df, arr_values (df_index df)) frames) |};
            df_columns := map (λ n, (n, concat_column frames n)) names |}
  end.

Definition build_dataframe (docs : list BsonDoc) : result DataFrame :=
  frames <~ rmap _build_dataframe docs ;;
  df <~ pd_concat frames ;;
  Ok (sort_index df).

(** *** Names for what [_make_bson_doc] encodes *)

Definition encode_columns (cols : list (label * ndarray)) : SON BsonColumn :=
  map (λ nc, (py_str nc.1, _make_bson_column nc.2)) cols.

(** The frame that is encoded: rows sorted by the index, columns renamed. *)
Definition prepared (df : DataFrame) : DataFrame :=
  df_rename normalize (sort_index df).

(** The sum of the compressed sizes of the columns and of the index. *)
Definition compressed_size (df : DataFrame) : Z :=
  sum_Z (map (λ nc, col_size (_make_bson_column nc.2)) (df_columns df))
  + col_size (_make_bson_column (df_index df)).

End Code.

(** ** What the proofs assume about the libraries *)

Definition object_dtype : string := "object".

(** [np.load] reads back what [np.save] wrote for an array of a fixed-width
    dtype, and [lz4.block.decompress] what [lz4.block.compress] wrote. *)
Class CodecLaws (L : Libraries) : Prop := {
  np_load_save :
    ∀ arr, arr_dtype arr ≠ object_dtype → np_load (np_save arr) = Some arr;
  lz4_decompress_compress : ∀ b, lz4_decompress (lz4_compress b) = Some b;
}.

(** [np.load] is called without [allow_pickle]: it refuses an array of
    Python objects, which [np.save] pickles. *)
Class NoPickle (L : Libraries) : Prop := {
  np_load_object :
    ∀ arr, arr_dtype arr = object_dtype → np_load (np_save arr) = None;
}.


(** [argsort] returns the positions [0 .. n-1] in an order that makes the
    keys ascending; nothing is said about the order of equal keys. *)
Class SortLaws (L : Libraries) : Prop := {
  argsort_Permutation : ∀ keys, argsort keys ≡ₚ seq 0 (length keys);
  argsort_Sorted : ∀ keys, Sorted Z.le (map (λ i, nth i keys 0) (argsort keys));
}.

Class ConcatLaws (L : Libraries) : Prop := {
  concat_dtype_same :
    ∀ d l, l ≠ [] → Forall (eq (Some d)) l → concat_dtype l = d;
}.

(** A well-formed frame: every column is as long as the index. *)
Definition df_wf (df : DataFrame) : Prop :=
  Forall (λ nc, length (arr_values nc.2) = nrows df) (df_columns df).


Definition has_object_column (df : DataFrame) : Prop :=
  Exists (λ nc, arr_dtype nc.2 = object_dtype) (df_columns df).

(** Several columns carry the name "dtype" once the labels are
    normalised. *)
Definition repeats_dtype (df : DataFrame) : Prop :=
  (1 < length (filter (λ x, normalized_name x = "dtype"%string)
                      (df_column_names df)))%nat.

(** The arrays that the blobs of a document decode to: the index and the
    columns, in the document's order. *)
Definition decodes_to {L : Libraries} (doc : BsonDoc) (index : ndarray)
    (arrays : list ndarray) : Prop :=
  _deserialize_array (col_data (doc_index doc)) = Ok index ∧
  Forall2 (λ c arr, _deserialize_array (col_data c) = Ok arr)
          (son_values (doc_columns doc)) arrays.



(** ** Frames as objects: references and the store

    Python hands the caller's frame to [_make_bson_doc] by reference.
    [Store._make_bson_doc] is the same function with the references written
    out: [df.sort_index(ascending=True)] and [df.rename(columns=...)] are
    called without [inplace] and return new frames, and each assignment
    [df = ...] rebinds the local name to the new object. *)

Module Store.

Definition ST (A : Type) : Type :=
  gmap positive DataFrame → result A * gmap positive DataFrame.

Definition ret {A} (a : A) : ST A := λ h, (Ok a, h).

Definition raise {A} (e : exn) : ST A := λ h, (Err e, h).

Definition bind {A B} (m : ST A) (k : A → ST B) : ST B :=
  λ h, match m h with
       | (Ok a, h') => k a h'
       | (Err e, h') => (Err e, h')
       end.

Definition lift {A} (r : result A) : ST A := λ h, (r, h).

(** A new frame object; its reference is not in use. *)
Definition new_frame (df : DataFrame) : ST positive :=
  λ h, let r := fresh (dom h) in (Ok r, <[r := df]> h).

Definition deref (r : positive) : ST DataFrame :=
  λ h, match h !! r with
       | Some df => (Ok df, h)
       | None => (Err NameError, h)
       end.

Notation "x <- m ;; k" := (bind m (λ x, k))
  (at level 100, m at next level, right associativity, only parsing).

Section Code.
Context {L : Libraries}.

Definition _make_bson_doc (uid : string) (df : positive)
    (metadata : gmap string bson_value) : ST BsonDoc :=
  frame <- deref df ;;
  if negb (is_DatetimeIndex (df_index frame)) then raise ValueError
  else
    let mem_usage := memory_usage frame in
    df <- new_frame (sort_index frame) ;;
    frame <- deref df ;;
    df <- new_frame (df_rename normalize frame) ;;
    frame <- deref df ;;
    let index := _make_bson_column (df_index frame) in
    columns <- lift (make_columns frame (df_column_names frame) []) ;;
    let nrows := Z.of_nat (nrows frame) in
    sizes <- lift (rmap (λ col, c <~ son_get columns (py_str col) ;;
                                Ok (col_size c))
                     (df_column_names frame)) ;;
    let binary_size := sum_Z sizes in
    let binary_size := binary_size + col_size index in
    let compression_ratio := fdiv (of_int binary_size) (of_int mem_usage) in
    if fgt (of_int binary_size) (Fin size_threshold) then
      raise (InvalidBSON binary_size compression_ratio)
    else
      let add_meta : gmap string bson_value :=
        <["nrows" := BInt nrows]> (<["binary_size" := BInt binary_size]> ∅) in
      let metadata := add_meta ∪ metadata in
      match arr_values (df_index frame) with
      | [] => raise IndexError
      | first :: _ =>
          ret {| doc_uid := uid;
                 doc_start := first;
                 doc_end := List.last (arr_values (df_index frame)) first;
                 doc_metadata := metadata;
                 doc_index := index;
                 doc_columns := columns |}
      end.

End Code.

End Store.

(** ** Corruption of a stored blob *)

Definition flip_bit_byte (k : nat) (b : Byte.byte) : Byte.byte :=
  default b (Byte.of_N (N.lxor (Byte.to_N b) (2 ^ N.of_nat k))).

(** Bit [i mod 8] of byte [i / 8] is inverted. *)
Definition flip_bit (i : nat) (data : bytes) : bytes :=
  alter (flip_bit_byte (i mod 8)) (i / 8)%nat data.

(** The column dictionary with another blob; [sha1] and [size] are the
    stored ones. *)
Definition with_data (c : BsonColumn) (data : bytes) : BsonColumn :=
  {| col_data := data; col_dtype := col_dtype c;
     col_sha1 := col_sha1 c; col_size := col_size c |}.

Definition with_sha1 (c : BsonColumn) (sha1 : bytes) : BsonColumn :=
  {| col_data := col_data c; col_dtype := col_dtype c;
     col_sha1 := sha1; col_size := col_size c |}.

Definition corrupt_index (i : nat) (doc : BsonDoc) : BsonDoc :=
  {| doc_uid := doc_uid doc; doc_start := doc_start doc; doc_end := doc_end doc;
     doc_metadata := doc_metadata doc;
     doc_index := with_data (doc_index doc) (flip_bit i (col_data (doc_index doc)));
     doc_columns := doc_columns doc |}.

Definition corrupt_column (k i : nat) (doc : BsonDoc) : BsonDoc :=
  {| doc_uid := doc_uid doc; doc_start := doc_start doc; doc_end := doc_end doc;
     doc_metadata := doc_metadata doc;
     doc_index := doc_index doc;
     doc_columns :=
       alter (λ kv, (kv.1, with_data kv.2 (flip_bit i (col_data kv.2))))
             k (doc_columns doc) |}.

(** The document with every stored checksum replaced. *)
Definition replace_checksums (f : bytes → bytes) (doc : BsonDoc) : BsonDoc :=
  {| doc_uid := doc_uid doc; doc_start := doc_start doc; doc_end := doc_end doc;
     doc_metadata := doc_metadata doc;
     doc_index := with_sha1 (doc_index doc) (f (col_sha1 (doc_index doc)));
     doc_columns :=
       map (λ kv, (kv.1, with_sha1 kv.2 (f (col_sha1 kv.2)))) (doc_columns doc) |}.

(** ** Orders of the row positions *)

(** Ascending by key, equal keys by ascending position: the order a stable
    sort produces. *)
Definition key_pos_le (a b : Z * nat) : Prop :=
  a.1 < b.1 ∨ (a.1 = b.1 ∧ (a.2 ≤ b.2)%nat).

#[global] Instance key_pos_le_dec a b : Decision (key_pos_le a b).
Proof. unfold key_pos_le. apply _. Defined.

Definition argsort_by (R : Z * nat → Z * nat → Prop)
    `{∀ a b, Decision (R a b)} (keys : list Z) : list nat :=
  (merge_sort R (zip keys (seq 0 (length keys)))).*2.

(** A stable ascending sort of the positions. *)
Definition stable_argsort (keys : list Z) : list nat :=
  argsort_by key_pos_le keys.

(** ** The argsort behind [sort_index]

    [df.sort_index(ascending=True)] returns a frame whose index is already
    ascending as it is, and otherwise takes the rows at
    [index.argsort(kind='quicksort')].  For a [datetime64] array that is
    NumPy's [aquicksort_datetime] of [npysort/quicksort]: an introsort on
    the array [tosort] of positions, which partitions around the median of
    three while a partition has more than 17 elements and sorts the
    partitions by insertion.  NumPy and pandas are libraries the module
    imports; the routine is transcribed here from NumPy's source.  The
    heapsort it falls back to after 2 * floor(log2 n) partitions is not
    modelled: [aquicksort] is then [None]. *)

Module NumPy.

Definition SMALL_QUICKSORT : nat := 16.

Section Quicksort.
Variable v : list Z.

(** [v[*p]] *)
Definition deref (tosort : list nat) (p : nat) : Z :=
  nth (nth p tosort O) v 0.

(** [INTP_SWAP( *a, *b)] *)
Definition INTP_SWAP (tosort : list nat) (a b : nat) : list nat :=
  <[a := nth b tosort O]> (<[b := nth a tosort O]> tosort).

(** [if (LT(v[*a], v[*b])) INTP_SWAP( *a, *b);] *)
Definition swap_if_less (tosort : list nat) (a b : nat) : list nat :=
  if deref tosort a <? deref tosort b then INTP_SWAP tosort a b else tosort.

(** [do ++pi; while (LT(v[*pi], vp));] *)
Fixpoint scan_up (fuel : nat) (tosort : list nat) (vp : Z) (pi : nat) : nat :=
  match fuel with
  | O => pi
  | S fuel' =>
      if deref tosort (S pi) <? vp then scan_up fuel' tosort vp (S pi)
      else S pi
  end.

(** [do --pj; while (LT(vp, v[*pj]));] *)
Fixpoint scan_down (fuel : nat) (tosort : list nat) (vp : Z) (pj : nat) : nat :=
  match fuel with
  | O => pj
  | S fuel' =>
      if vp <? deref tosort (pred pj) then scan_down fuel' tosort vp (pred pj)
      else pred pj
  end.

(** The loop [for (;;)] of the partition; returns [tosort] and [pi]. *)
Fixpoint partition (fuel : nat) (tosort : list nat) (vp : Z) (pi pj : nat)
  : list nat * nat :=
  match fuel with
  | O => (tosort, pi)
  | S fuel' =>
      let pi := scan_up (length tosort) tosort vp pi in
      let pj := scan_down (length tosort) tosort vp pj in
      if (pj <=? pi)%nat then (tosort, pi)
      else partition fuel' (INTP_SWAP tosort pi pj) vp pi pj
  end.

(** One pass of [while ((pr - pl) > SMALL_QUICKSORT)] up to the push. *)
Definition partition_step (tosort : list nat) (pl pr : nat) : list nat * nat :=
  let pm := (pl + (pr - pl) / 2)%nat in
  let tosort := swap_if_less tosort pm pl in
  let tosort := swap_if_less tosort pr pm in
  let tosort := swap_if_less tosort pm pl in
  let vp := deref tosort pm in
  let pj := (pr - 1)%nat in
  let tosort := INTP_SWAP tosort pm pj in
  let '(tosort, pi) := partition (length tosort) tosort vp pl pj in
  let pk := (pr - 1)%nat in
  (INTP_SWAP tosort pi pk, pi).

(** [while (pj > pl && LT(vp, v[*pk])) { *pj-- = *pk--; }] *)
Fixpoint shift (fuel : nat) (tosort : list nat) (pl : nat) (vp : Z) (pj : nat)
  : list nat * nat :=
  match fuel with
  | O => (tosort, pj)
  | S fuel' =>
      if (pl <? pj)%nat && (vp <? deref tosort (pred pj))
      then shift fuel' (<[pj := nth (pred pj) tosort O]> tosort) pl vp (pred pj)
      else (tosort, pj)
  end.

(** The body of [for (pi = pl + 1; pi <= pr; ++pi)]. *)
Definition insert_one (pl : nat) (tosort : list nat) (pi : nat) : list nat :=
  let vi := nth pi tosort O in
  let vp := nth vi v 0 in
  let '(tosort, pj) := shift (length tosort) tosort pl vp pi in
  <[pj := vi]> tosort.

Definition insertion_sort (tosort : list nat) (pl pr : nat) : list nat :=
  foldl (insert_one pl) tosort (seq (S pl) (pr - pl)).

(** The loop [while (1)]; [stack] holds the partitions put aside with their
    [cdepth], [popped] tells that the partition comes from the stack (or is
    the whole array), where the depth is tested. *)
Fixpoint loop (fuel : nat) (tosort : list nat) (pl pr : nat) (cdepth : Z)
    (stack : list (nat * nat * Z)) (popped : bool) : option (list nat) :=
  match fuel with
  | O => None
  | S fuel' =>
      if popped && (cdepth <? 0) then None
      else if (SMALL_QUICKSORT <? pr - pl)%nat then
        let '(tosort, pi) := partition_step tosort pl pr in
        let cdepth := cdepth - 1 in
        if (pi - pl <? pr - pi)%nat
        then loop fuel' tosort pl (pi - 1)%nat cdepth
                  ((S pi, pr, cdepth) :: stack) false
        else loop fuel' tosort (S pi) pr cdepth
                  ((pl, (pi - 1)%nat, cdepth) :: stack) false
      else
        let tosort := insertion_sort tosort pl pr in
        match stack with
        | [] => Some tosort
        | (pl, pr, cdepth) :: stack => loop fuel' tosort pl pr cdepth stack true
        end
  end.

End Quicksort.

(** [npy_get_msb] *)
Definition npy_get_msb (num : nat) : Z := Z.log2 (Z.of_nat num).

(** [aquicksort_<type>(v, tosort, num)] on [tosort = arange(num)]. *)
Definition aquicksort (v : list Z) : option (list nat) :=
  let num := length v in
  loop v (2 * num + 2) (seq 0 num) 0 (num - 1) (npy_get_msb num * 2) [] true.

Fixpoint is_monotonic_increasing (keys : list Z) : bool :=
  match keys with
  | a :: (b :: _) as keys' => (a <=? b) && is_monotonic_increasing keys'
  | _ => true
  end.

(** The positions at which [sort_index] takes the rows. *)
Definition argsort (keys : list Z) : list nat :=
  if is_monotonic_increasing keys then seq 0 (length keys)
  else default (seq 0 (length keys)) (aquicksort keys).

End NumPy.

(** ** Executable stand-ins for the libraries

    A self-delimiting byte format plays the part of [np.save]/[np.load], the
    identity the part of the compressor and of the digest, a stable sort
    the part of the argsort.  They serve to run the definitions on
    concrete tables. *)

Module Toy.

(** A natural number: that many [x01], then [x00]. *)
Definition enc_nat (n : nat) : bytes := replicate n x01 ++ [x00].

Fixpoint dec_nat (b : bytes) : option (nat * bytes) :=
  match b with
  | x00 :: b' => Some (O, b')
  | x01 :: b' =>
      match dec_nat b' with
      | Some (n, r) => Some (S n, r)
      | None => None
      end
  | _ => None
  end.

(** An integer: a sign byte, then the magnitude. *)
Definition enc_Z (z : Z) : bytes :=
  (if z <? 0 then x01 else x00) :: enc_nat (Z.abs_nat z).

Definition dec_Z (b : bytes) : option (Z * bytes) :=
  match b with
  | [] => None
  | s :: b' =>
      match dec_nat b' with
      | Some (n, r) =>
          match s with
          | x00 => Some (Z.of_nat n, r)
          | x01 => Some (- Z.of_nat n, r)
          | _ => None
          end
      | None => None
      end
  end.

Fixpoint dec_list (n : nat) (b : bytes) : option (list Z * bytes) :=
  match n with
  | O => Some ([], b)
  | S n' =>
      match dec_Z b with
      | Some (z, r) =>
          match dec_list n' r with
          | Some (l, r') => Some (z :: l, r')
          | None => None
          end
      | None => None
      end
  end.

Definition np_save (arr : ndarray) : bytes :=
  let d := list_byte_of_string (arr_dtype arr) in
  enc_nat (length d) ++ d ++
  enc_nat (length (arr_values arr)) ++ concat (map enc_Z (arr_values arr)).

(** The loader with pickles allowed. *)
Definition np_load_any (b : bytes) : option ndarray :=
  match dec_nat b with
  | Some (n, b1) =>
      if decide (n ≤ length b1)%nat then
        match dec_nat (drop n b1) with
        | Some (m, b2) =>
            match dec_list m b2 with
            | Some (vs, []) =>
                Some {| arr_dtype := string_of_list_byte (take n b1);
                        arr_values := vs |}
            | _ => None
            end
        | None => None
        end
      else None
  | None => None
  end.

(** The loader as the module calls it: an array of objects is refused. *)
Definition np_load (b : bytes) : option ndarray :=
  match np_load_any b with
  | Some arr =>
      if decide (arr_dtype arr = object_dtype) then None else Some arr
  | None => None
  end.

Definition itemsize (dtype : string) : Z :=
  if String.eqb dtype "bool" then 1
  else if String.eqb dtype "int32" then 4
  else if String.eqb dtype "float32" then 4
  else 8.

(** Frames that agree on a column's dtype keep it; a numeric column that
    some frame lacks is filled with NaN and becomes float64; anything else
    is an object column. *)
Definition concat_dtype (l : list (option string)) : string :=
  match omap id l with
  | d :: ds =>
      if decide (Forall (eq d) ds) then
        if decide (Forall is_Some l) then d
        else if decide (d = "int64"%string ∨ d = "float64"%string) then "float64"
        else "object"
      else "object"
  | [] => "object"
  end.

Definition libraries : Libraries :=
  Build_Libraries np_save np_load itemsize stable_argsort
                  (λ b, b) Some (λ b, b) concat_dtype.

(** The same with the idealised loader. *)
Definition exact : Libraries :=
  Build_Libraries np_save np_load_any itemsize stable_argsort
                  (λ b, b) Some (λ b, b) concat_dtype.

(** The same with the argsort of [NumPy]. *)
Definition numpy_sort : Libraries :=
  Build_Libraries np_save np_load itemsize NumPy.argsort
                  (λ b, b) Some (λ b, b) concat_dtype.

(** A serializer whose output is 16,000,000 bytes whatever the array, on
    items 16,000,000 bytes wide. *)
Definition big_blob : bytes := replicate (Z.to_nat 16000000) x00.

Definition bulky : Libraries :=
  Build_Libraries (λ _, big_blob) (λ _, None) (λ _, 16000000) stable_argsort
                  (λ b, b) Some (λ b, b) concat_dtype.

(** The same serializer on items of ordinary width: the output is far
    larger than the memory the frame uses. *)
Definition swollen : Libraries :=
  Build_Libraries (λ _, big_blob) (λ _, None) itemsize stable_argsort
                  (λ b, b) Some (λ b, b) concat_dtype.

End Toy.

(** ** Tables used to run the definitions *)

Module Examples.

Definition t_dotted : DataFrame :=
  {| df_index := mk_ndarray datetime64_ns [30; 10; 20];
     df_columns := [(Str "a.b", mk_ndarray "int64" [1; 2; 3]);
                    (Str "c", mk_ndarray "float64" [7; 8; 9])] |}.

Definition t_plain : DataFrame :=
  {| df_index := mk_ndarray datetime64_ns [30; 10; 20];
     df_columns := [(Str "price", mk_ndarray "int64" [1; 2; 3]);
                    (Str "volume", mk_ndarray "float64" [7; 8; 9])] |}.

Definition t_ties : DataFrame :=
  {| df_index := mk_ndarray datetime64_ns [2; 1; 1];
     df_columns := [(Str "x", mk_ndarray "int64" [10; 20; 30])] |}.

(** Eighteen rows; all but the first share one index value. *)
Definition t_eighteen : DataFrame :=
  {| df_index := mk_ndarray datetime64_ns (2 :: replicate 17 1);
     df_columns := [(Str "x", mk_ndarray "int64" (Z.of_nat <$> seq 0 18))] |}.

Definition t_empty : DataFrame :=
  {| df_index := mk_ndarray datetime64_ns [];
     df_columns := [(Str "x", mk_ndarray "int64" [])] |}.

Definition t_one_row : DataFrame :=
  {| df_index := mk_ndarray datetime64_ns [0];
     df_columns := [(Str "x", mk_ndarray "V16000000" [0])] |}.

Definition t_left : DataFrame :=
  {| df_index := mk_ndarray datetime64_ns [1; 2];
     df_columns := [(Str "a", mk_ndarray "int64" [5; 6])] |}.

Definition t_right : DataFrame :=
  {| df_index := mk_ndarray datetime64_ns [3];
     df_columns := [(Str "b", mk_ndarray "int64" [7])] |}.

Definition t_colliding : DataFrame :=
  {| df_index := mk_ndarray datetime64_ns [1; 2];
     df_columns := [(Str "a.b", mk_ndarray "int64" [5; 6]);
                    (Str "ab", mk_ndarray "int64" [7; 8])] |}.

Definition t_range_index : DataFrame :=
  {| df_index := mk_ndarray "int64" [0; 1; 2];
     df_columns := [(Str "x", mk_ndarray "int64" [10; 20; 30])] |}.

Definition t_object : DataFrame :=
  {| df_index := mk_ndarray datetime64_ns [1; 2];
     df_columns := [(Str "name", mk_ndarray object_dtype [100; 200])] |}.


Definition meta_row_count : gmap string bson_value :=
  <["row_count" := BStr "caller"]> ∅.

Definition meta_colliding : gmap string bson_value :=
  <["nrows" := BStr "caller"]> (<["source" := BStr "feed"]> ∅).

End Examples.
(** ** Normalisation of column names *)

Lemma remove_dots_no_dot (s : string) (c : ascii) :
  In c (list_ascii_of_string (remove_dots s)) → c ≠ "."%char.
Proof.
  induction s as [|a s IH]; simpl; [tauto|].
  destruct (Ascii.eqb a ".") eqn:E; simpl; [exact IH|].
  intros [<-|H]; [|auto].
  intros ->. rewrite Ascii.eqb_refl in E. discriminate.
Qed.

Lemma remove_dots_filter (s : string) :
  list_ascii_of_string (remove_dots s) =
  List.filter (λ c, negb (Ascii.eqb c ".")) (list_ascii_of_string s).
Proof.
  induction s as [|a s IH]; simpl; [reflexivity|].
  destruct (Ascii.eqb a "."); simpl; [exact IH|]. by rewrite IH.
Qed.

Lemma remove_dots_fixpoint (s : string) :
  (∀ c, In c (list_ascii_of_string s) → c ≠ "."%char) → remove_dots s = s.
Proof.
  induction s as [|a s IH]; simpl; [reflexivity|]. intros H.
  destruct (Ascii.eqb a ".") eqn:E.
  - apply Ascii.eqb_eq in E. exfalso. apply (H a); auto.
  - f_equal. apply IH. intros c Hc. apply H. auto.
Qed.

Lemma remove_dots_idempotent (s : string) :
  remove_dots (remove_dots s) = remove_dots s.
Proof. apply remove_dots_fixpoint, remove_dots_no_dot. Qed.

(** ** Ordered dictionaries *)

Lemma son_set_fresh {V} (d : SON V) (k : string) (v : V) :
  k ∉ son_keys d → son_set d k v = d ++ [(k, v)].
Proof.
  unfold son_keys. induction d as [|[k' v'] d IH]; simpl; [done|].
  rewrite not_elem_of_cons. intros [Hne Hnin].
  destruct (String.eqb k' k) eqn:E.
  - apply String.eqb_eq in E. congruence.
  - by rewrite IH.
Qed.

Lemma son_get_app_fresh {V} (d1 d2 : SON V) (k : string) :
  k ∉ son_keys d1 → son_get (d1 ++ d2) k = son_get d2 k.
Proof.
  unfold son_keys. induction d1 as [|[k' v'] d1 IH]; simpl; [done|].
  rewrite not_elem_of_cons. intros [Hne Hnin].
  destruct (String.eqb k' k) eqn:E; [|auto].
  apply String.eqb_eq in E. congruence.
Qed.

Lemma son_get_NoDup {V} (d : SON V) (k : string) (v : V) :
  NoDup (son_keys d) → (k, v) ∈ d → son_get d k = Ok v.
Proof.
  unfold son_keys. induction d as [|[k' v'] d IH]; simpl.
  - intros _ H. by apply elem_of_nil in H.
  - rewrite NoDup_cons, elem_of_cons. intros [Hnin Hnd] [Heq|Hin].
    + inversion Heq; subst. by rewrite String.eqb_refl.
    + destruct (String.eqb k' k) eqn:E; [|auto].
      apply String.eqb_eq in E. subst k'. exfalso. apply Hnin.
      apply list_elem_of_fmap. by exists (k, v).
Qed.

Lemma ordered_dict_NoDup {V} (items : list (string * V)) :
  NoDup items.*1 → ordered_dict items = items.
Proof.
  unfold ordered_dict.
  assert (G : ∀ acc : SON V,
    NoDup (son_keys acc ++ items.*1) →
    foldl (λ d kv, son_set d kv.1 kv.2) acc items = acc ++ items).
  { induction items as [|[k v] items IH]; simpl; intros acc Hnd.
    - by rewrite app_nil_r.
    - rewrite son_set_fresh.
      + rewrite IH, <- app_assoc; [done|].
        unfold son_keys in *. rewrite fmap_app. simpl.
        by rewrite <- app_assoc.
      + apply NoDup_app in Hnd as (_ & Hd & _). intros Hin.
        apply (Hd k Hin). left. }
  intros Hnd. by apply (G []).
Qed.

(** ** Columns of a frame *)

Lemma filter_none {A} (P : A → Prop) `{∀ x, Decision (P x)} (l : list A) :
  (∀ x, x ∈ l → ¬ P x) → filter P l = [].
Proof.
  induction l as [|a l IH]; intros Hl; [done|].
  rewrite filter_cons_False by (apply Hl; left).
  apply IH. intros x Hx. apply Hl. by right.
Qed.

Lemma df_getitem_NoDup (df : DataFrame) (n : label) (a : ndarray) :
  NoDup (df_column_names df) → (n, a) ∈ df_columns df → df_getitem df n = [a].
Proof.
  unfold df_getitem, df_column_names.
  induction (df_columns df) as [|[k v] cols IH]; simpl.
  - intros _ H. by apply elem_of_nil in H.
  - rewrite NoDup_cons, elem_of_cons. intros [Hnin Hnd] Hin.
    rewrite filter_cons. simpl. destruct (decide (k = n)) as [->|Hne].
    + assert (filter (λ nc : label * ndarray, nc.1 = n) cols = []) as ->.
      { apply filter_none. intros [k' v'] Hin' Hk. simpl in Hk.
        subst k'. apply Hnin, list_elem_of_fmap. by exists (n, v'). }
      destruct Hin as [Heq|Hin]; [by inversion Heq|].
      exfalso. apply Hnin, list_elem_of_fmap. by exists (n, a).
    + destruct Hin as [Heq|Hin]; [inversion Heq; congruence|]. auto.
Qed.

Lemma df_getitem_single_NoDup (cols : list (label * ndarray)) :
  (∀ n, n ∈ cols.*1 → length (filter (λ nc : label * ndarray, nc.1 = n) cols) = 1%nat) →
  NoDup cols.*1.
Proof.
  induction cols as [|[k v] cols IH]; simpl; intros H; [constructor|].
  assert (Hk : filter (λ nc : label * ndarray, nc.1 = k) cols = []).
  { specialize (H k (list_elem_of_here _ _)). rewrite filter_cons in H. simpl in H.
    rewrite decide_True in H by done. simpl in H.
    destruct (filter _ cols); [done|discriminate]. }
  constructor.
  - intros Hin. apply list_elem_of_fmap in Hin as ([k' v'] & -> & Hin). simpl in Hk.
    assert ((k', v') ∈ filter (λ nc : label * ndarray, nc.1 = k') cols) as Hf
      by (by apply list_elem_of_filter).
    rewrite Hk in Hf. by apply elem_of_nil in Hf.
  - apply IH. intros n Hn. specialize (H n (list_elem_of_further _ _ _ Hn)).
    rewrite filter_cons in H. simpl in H. destruct (decide (k = n)) as [->|Hne]; [|done].
    apply list_elem_of_fmap in Hn as ([k' v'] & -> & Hin).
    assert ((k', v') ∈ filter (λ nc : label * ndarray, nc.1 = k') cols) as Hf
      by (by apply list_elem_of_filter).
    simpl in Hk. rewrite Hk in Hf. by apply elem_of_nil in Hf.
Qed.

(** ** The write path: what [_make_bson_doc] computes *)

Section Write.
Context {L : Libraries}.

Lemma make_columns_ok (df : DataFrame) (cols : list (label * ndarray))
    (acc : SON BsonColumn) :
  (∀ nc, nc ∈ cols → df_getitem df nc.1 = [nc.2]) →
  NoDup (son_keys acc ++ map py_str cols.*1) →
  make_columns df cols.*1 acc = Ok (acc ++ encode_columns cols).
Proof.
  revert acc. induction cols as [|[n a] cols IH]; simpl; intros acc Hget Hnd.
  - by rewrite app_nil_r.
  - assert (Hg := Hget (n, a) (list_elem_of_here _ _)). simpl in Hg. rewrite Hg.
    rewrite son_set_fresh.
    + rewrite IH.
      * by rewrite <- app_assoc.
      * intros nc Hnc. apply Hget. by right.
      * unfold son_keys in *. rewrite fmap_app. simpl. by rewrite <- app_assoc.
    + apply NoDup_app in Hnd as (_ & Hd & _). intros Hin.
      apply (Hd (py_str n) Hin). left.
Qed.

Lemma make_columns_inv (df : DataFrame) (cols : list label)
    (acc r : SON BsonColumn) :
  make_columns df cols acc = Ok r →
  ∀ c, c ∈ cols →
    length (filter (λ nc : label * ndarray, nc.1 = c) (df_columns df)) = 1%nat.
Proof.
  revert acc. induction cols as [|col cols IH]; simpl; intros acc Hr c Hc.
  - by apply elem_of_nil in Hc.
  - destruct (df_getitem df col) as [|s [|s' rest]] eqn:E;
      [discriminate| |by destruct (bool_decide _)].
    apply elem_of_cons in Hc as [->|Hc]; [|eauto].
    unfold df_getitem in E. apply (f_equal length) in E.
    by rewrite length_fmap in E.
Qed.

Lemma make_columns_NoDup (df : DataFrame) (r : SON BsonColumn) :
  make_columns df (df_column_names df) [] = Ok r →
  NoDup (df_column_names df).
Proof.
  intros Hr. apply df_getitem_single_NoDup. intros n Hn.
  eapply make_columns_inv; eauto.
Qed.

Lemma make_columns_eq (df : DataFrame) :
  NoDup (map py_str (df_column_names df)) →
  make_columns df (df_column_names df) [] = Ok (encode_columns (df_columns df)).
Proof.
  intros Hnd. apply (make_columns_ok df (df_columns df) []); [|done].
  intros [n a] Hin. apply df_getitem_NoDup; [|done].
  by apply (NoDup_fmap_1 py_str).
Qed.

Lemma encode_columns_keys (cols : list (label * ndarray)) :
  son_keys (encode_columns cols) = map py_str cols.*1.
Proof.
  unfold son_keys, encode_columns. change (@map) with (@fmap list _).
  rewrite <- !list_fmap_compose. by apply list_fmap_ext.
Qed.

Lemma column_sizes_eq (cols l : list (label * ndarray)) :
  NoDup (map py_str cols.*1) → l ⊆ cols →
  rmap (λ col, c <~ son_get (encode_columns cols) (py_str col) ;;
               Ok (col_size c)) l.*1 =
  Ok (map (λ nc, col_size (_make_bson_column nc.2)) l).
Proof.
  intros Hnd. induction l as [|[n a] l IH]; intros Hsub; [done|].
  rewrite fmap_cons. cbn [rmap map fst snd].
  rewrite (son_get_NoDup _ (py_str n) (_make_bson_column a)).
  - cbn [rbind]. rewrite IH; [done|]. intros x Hx. apply Hsub. by right.
  - by rewrite encode_columns_keys.
  - unfold encode_columns. apply list_elem_of_fmap. exists (n, a).
    split; [done|]. apply Hsub. left.
Qed.

Lemma prepared_column_names (df : DataFrame) :
  df_column_names (prepared df) = map normalize (df_column_names df).
Proof.
  unfold prepared, df_column_names, df_rename, sort_index, df_take. simpl.
  change (@map) with (@fmap list _). rewrite <- !list_fmap_compose.
  by apply list_fmap_ext.
Qed.

Lemma prepared_py_str (df : DataFrame) :
  map py_str (df_column_names (prepared df)) =
  map normalized_name (df_column_names df).
Proof.
  rewrite prepared_column_names. change (@map) with (@fmap list _).
  rewrite <- list_fmap_compose. by apply list_fmap_ext.
Qed.

(** The labels of the encoded frame are distinct exactly when the
    normalised names of the caller's frame are. *)
Lemma prepared_NoDup (df : DataFrame) :
  NoDup (df_column_names (prepared df)) ↔
  NoDup (map normalized_name (df_column_names df)).
Proof.
  rewrite prepared_column_names.
  replace (map normalize (df_column_names df))
    with (Str <$> map normalized_name (df_column_names df)).
  - apply NoDup_fmap. by intros x y [= ->].
  - change (@map) with (@fmap list _). rewrite <- list_fmap_compose.
    by apply list_fmap_ext.
Qed.

Lemma prepared_py_str_NoDup (df : DataFrame) :
  NoDup (df_column_names (prepared df)) →
  NoDup (map py_str (df_column_names (prepared df))).
Proof. rewrite prepared_py_str. apply prepared_NoDup. Qed.

Lemma _make_bson_doc_eq (uid : string) (df : DataFrame)
    (metadata : gmap string bson_value) :
  is_DatetimeIndex (df_index df) = true →
  NoDup (df_column_names (prepared df)) →
  _make_bson_doc uid df metadata =
    let df' := prepared df in
    let binary_size := compressed_size df' in
    if fgt (of_int binary_size) (Fin size_threshold) then
      Err (InvalidBSON binary_size
             (fdiv (of_int binary_size) (of_int (memory_usage df))))
    else
      match arr_values (df_index df') with
      | [] => Err IndexError
      | first :: _ =>
          Ok {| doc_uid := uid;
                doc_start := first;
                doc_end := List.last (arr_values (df_index df')) first;
                doc_metadata :=
                  <["nrows" := BInt (Z.of_nat (nrows df'))]>
                    (<["binary_size" := BInt binary_size]> ∅) ∪ metadata;
                doc_index := _make_bson_column (df_index df');
                doc_columns := encode_columns (df_columns df') |}
      end.
Proof.
  intros Hidx Hnd. apply prepared_py_str_NoDup in Hnd.
  unfold _make_bson_doc. rewrite Hidx. simpl negb. cbv iota.
  fold (prepared df). cbv zeta.
  rewrite (make_columns_eq _ Hnd). simpl rbind.
  unfold df_column_names in *.
  rewrite (column_sizes_eq _ _ Hnd) by done. simpl rbind.
  reflexivity.
Qed.

Lemma _make_bson_doc_not_datetime (uid : string) (df : DataFrame)
    (metadata : gmap string bson_value) :
  is_DatetimeIndex (df_index df) = false →
  _make_bson_doc uid df metadata = Err ValueError.
Proof. intros H. unfold _make_bson_doc. by rewrite H. Qed.

(** A document is only returned for a frame with a DatetimeIndex whose
  renamed columns carry distinct labels. *)
Lemma _make_bson_doc_Ok_inv (uid : string) (df : DataFrame)
    (metadata : gmap string bson_value) (doc : BsonDoc) :
  _make_bson_doc uid df metadata = Ok doc →
  is_DatetimeIndex (df_index df) = true ∧
  NoDup (df_column_names (prepared df)).
Proof.
  unfold _make_bson_doc.
  destruct (is_DatetimeIndex (df_index df)); simpl; [|discriminate].
  fold (prepared df).
  destruct (make_columns (prepared df) (df_column_names (prepared df)) []) eqn:E;
    simpl; [|discriminate].
  intros _. split; [done|]. by eapply make_columns_NoDup.
Qed.

End Write.

(** ** Names, sizes and metadata of a built document *)

Section Document.
Context {L : Libraries}.

Lemma fgt_threshold (binary_size : Z) :
  fgt (of_int binary_size) (Fin size_threshold) = true ↔
  (size_threshold < inject_Z binary_size)%Q.
Proof.
  unfold fgt, of_int, Qlt_bool. rewrite negb_true_iff.
  split.
  - intros H. apply Qnot_le_lt. intros Hle.
    apply Qle_bool_iff in Hle. congruence.
  - intros H. destruct (Qle_bool (inject_Z binary_size) size_threshold) eqn:E; [|done].
    apply Qle_bool_iff in E. exfalso. by apply (Qlt_not_le _ _ H).
Qed.

Lemma size_threshold_bytes (binary_size : Z) :
  (size_threshold < inject_Z binary_size)%Q ↔ 15938356 ≤ binary_size.
Proof.
  unfold size_threshold, MAX_BSON_SIZE, Qlt, Qmult, inject_Z. simpl. lia.
Qed.

(** The document returned for a frame, in closed form. *)
Lemma _make_bson_doc_Ok (uid : string) (df : DataFrame)
    (metadata : gmap string bson_value) (doc : BsonDoc) :
  _make_bson_doc uid df metadata = Ok doc →
  fgt (of_int (compressed_size (prepared df))) (Fin size_threshold) = false ∧
  ∃ first rest,
    arr_values (df_index (prepared df)) = first :: rest ∧
    doc = {| doc_uid := uid;
             doc_start := first;
             doc_end := List.last (first :: rest) first;
             doc_metadata :=
               <["nrows" := BInt (Z.of_nat (nrows (prepared df)))]>
                 (<["binary_size" := BInt (compressed_size (prepared df))]> ∅)
               ∪ metadata;
             doc_index := _make_bson_column (df_index (prepared df));
             doc_columns := encode_columns (df_columns (prepared df)) |}.
Proof.
  intros Hok. destruct (_make_bson_doc_Ok_inv _ _ _ _ Hok) as [Hidx Hnd].
  rewrite (_make_bson_doc_eq _ _ _ Hidx Hnd) in Hok. cbv zeta in Hok.
  destruct (fgt _ _); [discriminate|]. split; [done|].
  destruct (arr_values (df_index (prepared df))) as [|first rest] eqn:E;
    [discriminate|].
  exists first, rest. split; [done|]. by inversion Hok.
Qed.

Lemma built_binary_size (uid : string) (df : DataFrame)
    (metadata : gmap string bson_value) (doc : BsonDoc) :
  _make_bson_doc uid df metadata = Ok doc →
  doc_metadata doc !! "binary_size" = Some (BInt (compressed_size (prepared df))) ∧
  fgt (of_int (compressed_size (prepared df))) (Fin size_threshold) = false.
Proof.
  intros Hok.
  destruct (_make_bson_doc_Ok _ _ _ _ Hok) as (Hfgt & first & rest & _ & ->).
  split; [|done]. simpl.
  apply lookup_union_Some_l. rewrite lookup_insert_ne by done.
  by rewrite lookup_insert_eq.
Qed.

End Document.

(** C9: normalising a column name removes every '.' and nothing else, so
    "a.b" becomes "ab"; normalising twice is the same as normalising once
    (on the text and on the label); and the column keys of a built document
    are the normalised names of the frame's columns, in order, a name being
    the text [str()] gives for the label. *)
Theorem C9_normalization :
  remove_dots "a.b" = "ab"%string ∧
  normalize (Str "a.b") = Str "ab" ∧
  (∀ s, list_ascii_of_string (remove_dots s) =
        List.filter (λ c, negb (Ascii.eqb c ".")) (list_ascii_of_string s)) ∧
  (∀ s, remove_dots (remove_dots s) = remove_dots s) ∧
  (∀ x, normalize (normalize x) = normalize x) ∧
  (∀ (L : Libraries) uid df metadata doc,
     _make_bson_doc uid df metadata = Ok doc →
     son_keys (doc_columns doc) = map normalized_name (df_column_names df)).
Proof.
  split; [reflexivity|]. split; [reflexivity|].
  split; [exact remove_dots_filter|].
  split; [exact remove_dots_idempotent|].
  split; [intros x; unfold normalize, normalized_name; simpl;
          by rewrite remove_dots_idempotent|].
  intros L uid df metadata doc Hok.
  destruct (_make_bson_doc_Ok _ _ _ _ Hok) as (_ & first & rest & _ & ->). simpl.
  rewrite encode_columns_keys. apply prepared_py_str.
Qed.

Lemma C9_normalization_witness :
  ∃ doc, _make_bson_doc (L:=Toy.libraries) "u" Examples.t_dotted ∅ = Ok doc ∧
         son_keys (doc_columns doc) = ["ab"; "c"]%string.
Proof.
  destruct (_make_bson_doc (L:=Toy.libraries) "u" Examples.t_dotted ∅)
    as [doc|e] eqn:E.
  - exists doc. split; [reflexivity|].
    exact (proj2 (proj2 (proj2 (proj2 (proj2 C9_normalization)))) _ _ _ _ _ E).
  - vm_compute in E. discriminate E.
Defined.

(** The metadata of a returned document, as one map. *)
Lemma built_metadata (L : Libraries) (uid : string) (df : DataFrame)
    (metadata : gmap string bson_value) (doc : BsonDoc) :
  _make_bson_doc uid df metadata = Ok doc →
  doc_metadata doc =
    <["nrows" := BInt (Z.of_nat (nrows (prepared df)))]>
      (<["binary_size" := BInt (compressed_size (prepared df))]> metadata).
Proof.
  intros Hok.
  destruct (_make_bson_doc_Ok _ _ _ _ Hok) as (_ & first & rest & _ & ->). simpl.
  rewrite <- !insert_union_l. by rewrite (left_id_L ∅ (∪)).
Qed.

(** C8: the metadata of a returned document is the caller's metadata with
    the two keys "nrows" and "binary_size" set to the number of rows and to
    the sum of the compressed sizes; a caller's entry under "nrows" or
    "binary_size" is overwritten, every other entry is kept as the caller
    gave it, an entry under "row_count" included: no key "row_count" is
    derived. *)
Theorem C8_metadata (L : Libraries) (uid : string) (df : DataFrame)
    (metadata : gmap string bson_value) (doc : BsonDoc) :
  _make_bson_doc uid df metadata = Ok doc →
  let number_of_rows := BInt (Z.of_nat (nrows (prepared df))) in
  let binary_size := BInt (compressed_size (prepared df)) in
  doc_metadata doc =
    <["nrows" := number_of_rows]> (<["binary_size" := binary_size]> metadata) ∧
  doc_metadata doc !! "nrows" = Some number_of_rows ∧
  doc_metadata doc !! "binary_size" = Some binary_size ∧
  (∀ k : string, k ≠ "nrows" → k ≠ "binary_size" →
     doc_metadata doc !! k = metadata !! k) ∧
  doc_metadata doc !! "row_count" = metadata !! "row_count".
Proof.
  intros Hok number_of_rows binary_size.
  rewrite (built_metadata _ _ _ _ _ Hok). fold number_of_rows binary_size.
  split; [done|]. split; [by rewrite lookup_insert_eq|]. split; [|split].
  - rewrite lookup_insert_ne by done. by rewrite lookup_insert_eq.
  - intros k H1 H2. by rewrite !lookup_insert_ne.
  - by rewrite !lookup_insert_ne.
Qed.

Lemma C8_metadata_witness :
  ∃ doc,
    _make_bson_doc (L:=Toy.libraries) "u" Examples.t_plain Examples.meta_colliding
      = Ok doc ∧
    doc_metadata doc !! "nrows" = Some (BInt 3) ∧
    doc_metadata doc !! "source" = Some (BStr "feed").
Proof.
  destruct (_make_bson_doc (L:=Toy.libraries) "u" Examples.t_plain
              Examples.meta_colliding) as [doc|e] eqn:E.
  - exists doc. split; [reflexivity|].
    destruct (C8_metadata _ _ _ _ _ E) as (_ & Hn & _ & Hk & _).
    split; [exact Hn|]. rewrite Hk by done. reflexivity.
  - vm_compute in E. discriminate E.
Defined.

(** As the specification states it, with the reserved names [row_count] and
    [binary_size], C8 fails: a caller's entry under "row_count" is not
    overwritten by the number of rows, and without such an entry the
    returned metadata has no key "row_count" at all. *)
Lemma C8_row_count_counterexample :
  (∃ doc,
     _make_bson_doc (L:=Toy.libraries) "u" Examples.t_plain Examples.meta_row_count
       = Ok doc ∧
     nrows Examples.t_plain = 3%nat ∧
     doc_metadata doc !! "row_count" = Some (BStr "caller") ∧
     doc_metadata doc !! "row_count" ≠ Some (BInt 3)) ∧
  (∃ doc,
     _make_bson_doc (L:=Toy.libraries) "u" Examples.t_plain ∅ = Ok doc ∧
     doc_metadata doc !! "row_count" = None).
Proof.
  split.
  - destruct (_make_bson_doc (L:=Toy.libraries) "u" Examples.t_plain
                Examples.meta_row_count) as [doc|e] eqn:E.
    + exists doc. split; [reflexivity|]. split; [reflexivity|].
      rewrite (built_metadata _ _ _ _ _ E), !lookup_insert_ne by done.
      split; [reflexivity|]. vm_compute. discriminate.
    + vm_compute in E. discriminate E.
  - destruct (_make_bson_doc (L:=Toy.libraries) "u" Examples.t_plain ∅)
      as [doc|e] eqn:E.
    + exists doc. split; [reflexivity|].
      rewrite (built_metadata _ _ _ _ _ E), !lookup_insert_ne by done.
      reflexivity.
    + vm_compute in E. discriminate E.
Qed.

(** ** The size check *)

Lemma big_blob_length : Z.of_nat (length Toy.big_blob) = 16000000.
Proof.
  unfold Toy.big_blob. rewrite length_replicate. apply Z2Nat.id. lia.
Qed.

Lemma bulky_compressed_size :
  compressed_size (L:=Toy.bulky) (prepared (L:=Toy.bulky) Examples.t_one_row)
  = 32000000.
Proof.
  unfold compressed_size.
  change (df_columns (prepared (L:=Toy.bulky) Examples.t_one_row))
    with [(Str "x", mk_ndarray "V16000000" [0])].
  unfold _make_bson_column, _serialize_array, sum_Z.
  cbn -[Toy.big_blob length Z.of_nat Z.add].
  rewrite big_blob_length. reflexivity.
Qed.

(** C2: for a frame with a DatetimeIndex and distinct normalised column
    names, [_make_bson_doc] raises InvalidBSON exactly when the sum of the
    compressed sizes of the index and of the columns exceeds
    0.95 * MAX_BSON_SIZE (MAX_BSON_SIZE = 2^24 = 16 MiB), and the exception
    then carries that sum and its ratio to the memory usage; every document
    it returns records a binary_size of at most 0.95 * MAX_BSON_SIZE. *)
Theorem C2_size_check (L : Libraries) (uid : string) (df : DataFrame)
    (metadata : gmap string bson_value) :
  let binary_size := compressed_size (prepared df) in
  let compression_ratio := fdiv (of_int binary_size) (of_int (memory_usage df)) in
  (is_DatetimeIndex (df_index df) = true →
   NoDup (map normalized_name (df_column_names df)) →
   ((∃ b r, _make_bson_doc uid df metadata = Err (InvalidBSON b r)) ↔
    (size_threshold < inject_Z binary_size)%Q) ∧
   ((size_threshold < inject_Z binary_size)%Q →
    _make_bson_doc uid df metadata =
      Err (InvalidBSON binary_size compression_ratio))) ∧
  (∀ doc, _make_bson_doc uid df metadata = Ok doc →
     doc_metadata doc !! "binary_size" = Some (BInt binary_size) ∧
     (inject_Z binary_size <= size_threshold)%Q) ∧
  (size_threshold == (95 # 100) * inject_Z (16 * 1024 * 1024))%Q.
Proof.
  intros binary_size compression_ratio. split; [|split].
  - intros Hidx Hnd. apply prepared_NoDup in Hnd.
    rewrite (_make_bson_doc_eq _ _ _ Hidx Hnd). cbv zeta.
    fold binary_size. fold compression_ratio.
    rewrite <- fgt_threshold.
    destruct (fgt (of_int binary_size) (Fin size_threshold)) eqn:E.
    + split; [|done]. split; [done|]. intros _. eauto.
    + split; [|done]. split; [|done]. intros (b & r & H).
      destruct (arr_values (df_index (prepared df))); discriminate.
  - intros doc Hok.
    destruct (built_binary_size _ _ _ _ Hok) as [Hbs Hfgt]. split; [done|].
    apply Qnot_lt_le. intros Hlt. apply fgt_threshold in Hlt.
    fold binary_size in Hfgt. congruence.
  - reflexivity.
Qed.

Lemma bulky_oversized :
  _make_bson_doc (L:=Toy.bulky) "u" Examples.t_one_row ∅ =
  Err (InvalidBSON 32000000 (fdiv (of_int 32000000) (of_int 32000000))).
Proof.
  rewrite _make_bson_doc_eq.
  - cbv zeta. rewrite bulky_compressed_size.
    assert (fgt (of_int 32000000) (Fin size_threshold) = true) as -> by reflexivity.
    reflexivity.
  - reflexivity.
  - rewrite prepared_column_names. apply NoDup_singleton.
Qed.

Lemma C2_size_check_witness :
  (size_threshold <
   inject_Z (compressed_size (L:=Toy.bulky)
               (prepared (L:=Toy.bulky) Examples.t_one_row)))%Q ∧
  _make_bson_doc (L:=Toy.bulky) "u" Examples.t_one_row ∅ =
  Err (InvalidBSON
         (compressed_size (L:=Toy.bulky) (prepared (L:=Toy.bulky) Examples.t_one_row))
         (fdiv (of_int (compressed_size (L:=Toy.bulky)
                          (prepared (L:=Toy.bulky) Examples.t_one_row)))
               (of_int (memory_usage (L:=Toy.bulky) Examples.t_one_row)))).
Proof.
  assert (Hlt : (size_threshold <
                 inject_Z (compressed_size (L:=Toy.bulky)
                             (prepared (L:=Toy.bulky) Examples.t_one_row)))%Q).
  { rewrite bulky_compressed_size. reflexivity. }
  split; [exact Hlt|].
  refine (proj2 (proj1 (C2_size_check Toy.bulky "u" Examples.t_one_row ∅) _ _) Hlt).
  - reflexivity.
  - apply NoDup_singleton.
Defined.

(** ** The splitting loop *)

Section Split.
Context {L : Libraries}.

Lemma docs_loop_ok (retry : pyfloat → result (list BsonDoc)) (uid : string)
    (metadata : gmap string bson_value) (sub_dfs : list DataFrame)
    (acc docs : list BsonDoc) :
  rmap (λ s, _make_bson_doc uid s metadata) sub_dfs = Ok docs →
  docs_loop retry uid metadata sub_dfs acc = Ok (acc ++ docs).
Proof.
  revert acc docs. induction sub_dfs as [|s rest IH]; simpl; intros acc docs H.
  - inversion H. by rewrite app_nil_r.
  - destruct (_make_bson_doc uid s metadata) as [doc|e]; [|discriminate].
    simpl in H.
    destruct (rmap (λ s, _make_bson_doc uid s metadata) rest) as [docs'|e];
      [|discriminate].
    inversion H; subst. rewrite (IH _ docs') by done. by rewrite <- app_assoc.
Qed.

Lemma docs_loop_retry (retry : pyfloat → result (list BsonDoc)) (uid : string)
    (metadata : gmap string bson_value) (pre post : list DataFrame)
    (sub : DataFrame) (acc built : list BsonDoc) (bs : Z) (ratio : pyfloat) :
  rmap (λ s, _make_bson_doc uid s metadata) pre = Ok built →
  _make_bson_doc uid sub metadata = Err (InvalidBSON bs ratio) →
  docs_loop retry uid metadata (pre ++ sub :: post) acc =
    let new_max_size := fdiv (Fin ((95 # 100) * inject_Z MAX_BSON_SIZE)) ratio in
    if fgt new_max_size (Fin (inject_Z MAX_BSON_SIZE * (8 # 10)))
    then retry new_max_size else Err AssertionError.
Proof.
  revert acc built. induction pre as [|s pre IH]; simpl; intros acc built Hpre Hsub.
  - by rewrite Hsub.
  - destruct (_make_bson_doc uid s metadata) as [doc|e]; [|discriminate].
    simpl in Hpre.
    destruct (rmap (λ s, _make_bson_doc uid s metadata) pre) as [docs'|e];
      [|discriminate].
    by apply (IH _ docs').
Qed.

Lemma docs_loop_Ok_inv (retry : pyfloat → result (list BsonDoc)) (uid : string)
    (metadata : gmap string bson_value) (sub_dfs : list DataFrame)
    (acc docs : list BsonDoc) :
  docs_loop retry uid metadata sub_dfs acc = Ok docs →
  (∃ built, rmap (λ s, _make_bson_doc uid s metadata) sub_dfs = Ok built ∧
            docs = acc ++ built) ∨
  (∃ size, retry size = Ok docs).
Proof.
  revert acc. induction sub_dfs as [|s rest IH]; simpl; intros acc H.
  - left. exists []. inversion H. by rewrite app_nil_r.
  - destruct (_make_bson_doc uid s metadata) as [doc|e].
    + destruct (IH _ H) as [(built & Hb & ->)|Hr]; [|by right].
      left. exists (doc :: built). simpl. rewrite Hb. simpl.
      by rewrite <- app_assoc.
    + destruct e; try discriminate.
      destruct (fgt _ _); [|discriminate]. right. eauto.
Qed.

(** Records are only returned from a level of the recursion at which every
    part was built. *)
Lemma make_bson_docs_Ok_inv (depth : nat) (uid : string) (df : DataFrame)
    (metadata : gmap string bson_value) (max_size : pyfloat)
    (docs : list BsonDoc) :
  make_bson_docs depth uid df metadata max_size = Ok docs →
  ∃ size sub_dfs,
    split_dataframes df size = Ok sub_dfs ∧
    rmap (λ s, _make_bson_doc uid s metadata) sub_dfs = Ok docs.
Proof.
  revert max_size. induction depth as [|depth IH]; simpl; intros max_size H;
    [discriminate|].
  destruct (split_dataframes df max_size) as [sub_dfs|e] eqn:E; [|discriminate].
  simpl in H. destruct (docs_loop_Ok_inv _ _ _ _ _ _ H) as [(built & Hb & ->)|[size Hr]].
  - exists max_size, sub_dfs. by split.
  - eauto.
Qed.

Lemma memory_usage_empty (df : DataFrame) :
  nrows df = 0%nat → df_wf df → memory_usage df = 0.
Proof.
  unfold memory_usage, nbytes, df_wf, nrows. intros Hn Hwf. rewrite Hn.
  rewrite Hn in Hwf. rewrite Z.mul_0_r.
  assert (Hs : sum_Z (map (λ nc : label * ndarray,
                 itemsize (arr_dtype nc.2) * Z.of_nat (length (arr_values nc.2)))
                 (df_columns df)) = 0); [|lia].
  induction Hwf as [|nc cols Hnc Hwf IH]; simpl; [done|].
  rewrite Hnc, IH. lia.
Qed.

Lemma split_dataframes_no_memory (df : DataFrame) (size : pyfloat) :
  memory_usage df = 0 → split_dataframes df size = Err ValueError.
Proof.
  intros Hm. unfold split_dataframes. rewrite Hm. unfold of_int.
  destruct size as [q| | |]; simpl; try reflexivity.
  destruct (Qeq_bool q 0); [reflexivity|]. unfold np_array_split. simpl.
  reflexivity.
Qed.

End Split.

(** C4: when the first part that fails to build raises InvalidBSON with
    ratio r, [make_bson_docs] computes 0.95 * MAX_BSON_SIZE / r, aborts with
    AssertionError unless that exceeds MAX_BSON_SIZE * 0.8, and otherwise
    returns the result of the recursive call on the whole original frame
    with the new size (the documents built so far play no part); when every
    part builds, it returns the built documents and recurses no further. *)
Theorem C4_retry (L : Libraries) (depth : nat) (uid : string) (df : DataFrame)
    (metadata : gmap string bson_value) (max_size : pyfloat)
    (sub_dfs : list DataFrame) :
  split_dataframes df max_size = Ok sub_dfs →
  (∀ pre sub post built bs ratio,
     sub_dfs = pre ++ sub :: post →
     rmap (λ s, _make_bson_doc uid s metadata) pre = Ok built →
     _make_bson_doc uid sub metadata = Err (InvalidBSON bs ratio) →
     let new_max_size := fdiv (Fin ((95 # 100) * inject_Z MAX_BSON_SIZE)) ratio in
     make_bson_docs (S depth) uid df metadata max_size =
       if fgt new_max_size (Fin (inject_Z MAX_BSON_SIZE * (8 # 10)))
       then make_bson_docs depth uid df metadata new_max_size
       else Err AssertionError) ∧
  (∀ docs,
     rmap (λ s, _make_bson_doc uid s metadata) sub_dfs = Ok docs →
     make_bson_docs (S depth) uid df metadata max_size = Ok docs).
Proof.
  intros Hsplit. split.
  - intros pre sub post built bs ratio -> Hpre Hsub. simpl. rewrite Hsplit. simpl.
    by rewrite (docs_loop_retry _ _ _ _ _ _ _ _ _ _ Hpre Hsub).
  - intros docs Hdocs. simpl. rewrite Hsplit. simpl.
    by rewrite (docs_loop_ok _ _ _ _ _ _ Hdocs).
Qed.

Lemma C4_retry_witness :
  make_bson_docs (L:=Toy.bulky) 3 "u" Examples.t_one_row ∅ default_max_size =
  make_bson_docs (L:=Toy.bulky) 2 "u" Examples.t_one_row ∅
    (fdiv (Fin ((95 # 100) * inject_Z MAX_BSON_SIZE))
          (fdiv (of_int 32000000) (of_int 32000000))) ∧
  ∃ docs,
    rmap (λ s, _make_bson_doc (L:=Toy.libraries) "u" s ∅) [Examples.t_plain]
      = Ok docs ∧
    make_bson_docs (L:=Toy.libraries) 1 "u" Examples.t_plain ∅ default_max_size
      = Ok docs.
Proof.
  split.
  - assert (Hsplit : split_dataframes (L:=Toy.bulky) Examples.t_one_row
                       default_max_size = Ok [Examples.t_one_row])
      by (lazy; reflexivity).
    pose proof (proj1 (C4_retry Toy.bulky 2 "u" Examples.t_one_row ∅
                         default_max_size _ Hsplit)
                  [] Examples.t_one_row [] [] _ _ eq_refl eq_refl bulky_oversized)
      as H.
    cbv zeta in H.
    assert (Hgt : fgt (fdiv (Fin ((95 # 100) * inject_Z MAX_BSON_SIZE))
                         (fdiv (of_int 32000000) (of_int 32000000)))
                    (Fin (inject_Z MAX_BSON_SIZE * (8 # 10))) = true)
      by reflexivity.
    rewrite Hgt in H. exact H.
  - assert (Hsplit : split_dataframes (L:=Toy.libraries) Examples.t_plain
                       default_max_size = Ok [Examples.t_plain])
      by (vm_compute; reflexivity).
    destruct (rmap (λ s, _make_bson_doc (L:=Toy.libraries) "u" s ∅)
                [Examples.t_plain]) as [docs|e] eqn:E.
    + exists docs. split; [reflexivity|].
      exact (proj2 (C4_retry Toy.libraries 0 "u" Examples.t_plain ∅
                      default_max_size _ Hsplit) docs E).
    + vm_compute in E. discriminate E.
Defined.

(** C6 (as the code has it): splitting a frame with no rows returns no
    document.  Its memory usage is 0, so the number of sections is
    ceil(0 / max_size) = 0 (or NaN when max_size is 0 or NaN), which
    [np.array_split] rejects: [make_bson_docs] raises ValueError whatever
    max_size is. *)
Theorem C6_empty_table (L : Libraries) (depth : nat) (uid : string)
    (df : DataFrame) (metadata : gmap string bson_value) (max_size : pyfloat) :
  nrows df = 0%nat → df_wf df →
  make_bson_docs (S depth) uid df metadata max_size = Err ValueError.
Proof.
  intros Hn Hwf. simpl.
  by rewrite (split_dataframes_no_memory _ _ (memory_usage_empty _ Hn Hwf)).
Qed.

Lemma C6_empty_table_witness :
  make_bson_docs (L:=Toy.libraries) 1000 "u" Examples.t_empty ∅ default_max_size
  = Err ValueError.
Proof.
  apply (C6_empty_table Toy.libraries 999 "u" Examples.t_empty ∅ default_max_size).
  - reflexivity.
  - repeat constructor.
Defined.

Lemma C6_empty_table_counterexample :
  ¬ ∃ doc,
      make_bson_docs (L:=Toy.libraries) 1000 "u" Examples.t_empty ∅
        default_max_size = Ok [doc] ∧
      doc_metadata doc !! "nrows" = Some (BInt 0).
Proof.
  intros (doc & H & _). vm_compute in H. discriminate H.
Qed.

(** ** The caller's frame is left alone *)

Section Frame.
Context {L : Libraries}.

Lemma new_frame_spec (df : DataFrame) (h : gmap positive DataFrame) :
  ∃ r, Store.new_frame df h = (Ok r, <[r := df]> h) ∧ h !! r = None.
Proof.
  exists (fresh (dom h)). split; [done|].
  apply not_elem_of_dom, is_fresh.
Qed.

End Frame.

(** C10: [_make_bson_doc] leaves the caller's frame as it was.  Run on a
    store in which the argument refers to a frame, it computes what the
    function on values computes, whether a document or an exception, and
    every object of the initial store, the argument's frame among them, is
    unchanged afterwards: sorting and renaming write to new objects. *)
Theorem C10_input_unchanged (L : Libraries) (uid : string) (df : positive)
    (metadata : gmap string bson_value) (h : gmap positive DataFrame)
    (frame : DataFrame) :
  h !! df = Some frame →
  ∃ h',
    Store._make_bson_doc uid df metadata h =
      (_make_bson_doc uid frame metadata, h') ∧
    h' !! df = Some frame ∧
    h ⊆ h'.
Proof.
  intros Hdf. unfold Store._make_bson_doc, _make_bson_doc.
  unfold Store.bind at 1. unfold Store.deref at 1. rewrite Hdf.
  destruct (is_DatetimeIndex (df_index frame)); cbn [negb].
  2: { exists h. by split. }
  destruct (new_frame_spec (sort_index frame) h) as (r1 & E1 & F1).
  unfold Store.bind at 1. rewrite E1.
  unfold Store.bind at 1. unfold Store.deref at 1. rewrite lookup_insert_eq.
  set (h1 := <[r1 := sort_index frame]> h).
  destruct (new_frame_spec (df_rename normalize (sort_index frame)) h1)
    as (r2 & E2 & F2).
  unfold Store.bind at 1. rewrite E2.
  unfold Store.bind at 1. unfold Store.deref at 1. rewrite lookup_insert_eq.
  set (h2 := <[r2 := df_rename normalize (sort_index frame)]> h1).
  assert (Hsub : h ⊆ h2).
  { transitivity h1; by apply insert_subseteq. }
  exists h2. split; [|split; [by eapply lookup_weaken|done]].
  unfold Store.bind, Store.lift, Store.raise, Store.ret. cbv zeta.
  destruct (make_columns _ _ _) as [columns|e]; cbn [rbind]; [|done].
  destruct (rmap _ _) as [sizes|e]; cbn [rbind]; [|done].
  match goal with |- context [fgt ?a ?b] => destruct (fgt a b) end; [done|].
  by destruct (arr_values _).
Qed.

Lemma C10_input_unchanged_witness :
  ∃ h',
    Store._make_bson_doc (L:=Toy.libraries) "u" 1%positive ∅
      {[ 1%positive := Examples.t_dotted ]} =
      (_make_bson_doc (L:=Toy.libraries) "u" Examples.t_dotted ∅, h') ∧
    h' !! 1%positive = Some Examples.t_dotted ∧
    ({[ 1%positive := Examples.t_dotted ]} : gmap positive DataFrame) ⊆ h'.
Proof.
  apply (C10_input_unchanged Toy.libraries "u" 1%positive ∅
           {[ 1%positive := Examples.t_dotted ]} Examples.t_dotted).
  reflexivity.
Defined.

(** ** The stand-in libraries satisfy the laws *)

Lemma zip_seq_nth (keys : list Z) (x : Z * nat) :
  x ∈ zip keys (seq 0 (length keys)) → nth x.2 keys 0 = x.1.
Proof.
  destruct x as [k i]. intros Hin. apply list_elem_of_lookup in Hin as [j Hj].
  apply lookup_zip_Some in Hj as [Hk Hi]. apply lookup_seq in Hi as [-> _].
  simpl. by apply nth_lookup_Some.
Qed.

Lemma argsort_by_Permutation (R : Z * nat → Z * nat → Prop)
    `{∀ a b, Decision (R a b)} (keys : list Z) :
  argsort_by R keys ≡ₚ seq 0 (length keys).
Proof.
  unfold argsort_by. rewrite merge_sort_Permutation.
  rewrite snd_zip; [done|]. by rewrite length_seq.
Qed.

Lemma argsort_by_keys (R : Z * nat → Z * nat → Prop)
    `{∀ a b, Decision (R a b)} (keys : list Z) :
  map (λ i, nth i keys 0) (argsort_by R keys) =
  (merge_sort R (zip keys (seq 0 (length keys)))).*1.
Proof.
  unfold argsort_by.
  assert (Hall : Forall (λ x : Z * nat, nth x.2 keys 0 = x.1)
                   (merge_sort R (zip keys (seq 0 (length keys))))).
  { apply Forall_forall. intros x Hx. apply zip_seq_nth.
    by rewrite <- (merge_sort_Permutation R). }
  induction Hall as [|x l Hx Hl IH]; [done|].
  change (map (λ i, nth i keys 0) (x.2 :: l.*2) = x.1 :: l.*1).
  rewrite map_cons. by f_equal.
Qed.

Lemma argsort_by_Sorted (R : Z * nat → Z * nat → Prop)
    `{∀ a b, Decision (R a b)} `{!Total R} (keys : list Z) :
  (∀ a b, R a b → a.1 ≤ b.1) →
  Sorted Z.le (map (λ i, nth i keys 0) (argsort_by R keys)).
Proof.
  intros HR. rewrite argsort_by_keys.
  apply Sorted_fmap with (R1 := R); [exact HR|]. by apply Sorted_merge_sort.
Qed.

#[global] Instance key_pos_le_total : Total key_pos_le.
Proof. intros [a i] [b j]. unfold key_pos_le. simpl. lia. Qed.

Lemma stable_sort_laws (L : Libraries) :
  argsort = stable_argsort → SortLaws L.
Proof.
  intros E. split; intros keys; rewrite E.
  - apply argsort_by_Permutation.
  - apply argsort_by_Sorted; [apply _|]. intros a b. unfold key_pos_le. lia.
Qed.

#[global] Instance toy_sort_laws : SortLaws Toy.libraries.
Proof. by apply stable_sort_laws. Qed.

Lemma dec_nat_enc (n : nat) (r : bytes) :
  Toy.dec_nat (Toy.enc_nat n ++ r) = Some (n, r).
Proof.
  unfold Toy.enc_nat. induction n as [|n IH]; simpl; [done|].
  simpl in IH. by rewrite IH.
Qed.

Lemma dec_Z_enc (z : Z) (r : bytes) :
  Toy.dec_Z (Toy.enc_Z z ++ r) = Some (z, r).
Proof.
  unfold Toy.enc_Z, Toy.dec_Z. simpl. rewrite dec_nat_enc.
  destruct (z <? 0) eqn:E; do 2 f_equal.
  - apply Z.ltb_lt in E. lia.
  - apply Z.ltb_ge in E. lia.
Qed.

Lemma dec_list_enc (l : list Z) (r : bytes) :
  Toy.dec_list (length l) (concat (map Toy.enc_Z l) ++ r) = Some (l, r).
Proof.
  induction l as [|z l IH]; [done|].
  cbn [length map concat Toy.dec_list].
  rewrite <- app_assoc, dec_Z_enc. by rewrite IH.
Qed.

Lemma toy_np_load_any_save (arr : ndarray) :
  Toy.np_load_any (Toy.np_save arr) = Some arr.
Proof.
  unfold Toy.np_load_any, Toy.np_save. rewrite dec_nat_enc.
  rewrite decide_True by (rewrite length_app; lia).
  rewrite drop_app_length, take_app_length, dec_nat_enc.
  rewrite <- (app_nil_r (concat _)), dec_list_enc.
  rewrite string_of_list_byte_of_string. by destruct arr.
Qed.

#[global] Instance toy_codec_laws : CodecLaws Toy.libraries.
Proof.
  split; [|done]. intros arr Hd. change (Toy.np_load (Toy.np_save arr) = Some arr).
  unfold Toy.np_load. rewrite toy_np_load_any_save. by rewrite decide_False.
Qed.

#[global] Instance toy_no_pickle : NoPickle Toy.libraries.
Proof.
  split. intros arr Hd. change (Toy.np_load (Toy.np_save arr) = None).
  unfold Toy.np_load. rewrite toy_np_load_any_save. by rewrite decide_True.
Qed.


Lemma toy_concat_dtype_same (d : string) (l : list (option string)) :
  l ≠ [] → Forall (eq (Some d)) l → Toy.concat_dtype l = d.
Proof.
  intros Hne Hall. unfold Toy.concat_dtype.
  assert (Hom : omap id l = replicate (length l) d).
  { clear Hne. induction Hall as [|o l <- Hall IH]; [done|].
    change (omap id (Some d :: l)) with (d :: omap id l). by rewrite IH. }
  rewrite Hom. destruct l as [|o l]; [done|]. simpl.
  rewrite decide_True by (apply Forall_forall; intros x Hx;
                          by apply elem_of_replicate in Hx as [-> _]).
  rewrite decide_True; [done|].
  eapply Forall_impl; [exact Hall|]. intros x <-. eauto.
Qed.

#[global] Instance toy_concat_laws : ConcatLaws Toy.libraries.
Proof. split. exact toy_concat_dtype_same. Qed.

(** ** The order of the rows in a document *)

(** C7 (as the code has it): [_make_bson_doc] encodes the rows in ascending
    order of the index.  The document holds the index and the columns taken
    at one and the same permutation of the row positions, under which the
    index is ascending; which of the rows with equal index values comes
    first is left to the argsort behind [sort_index], called with its
    default [kind]. *)
Theorem C7_rows_ascending (L : Libraries) (HL : SortLaws L) (uid : string)
    (df : DataFrame) (metadata : gmap string bson_value) (doc : BsonDoc) :
  _make_bson_doc uid df metadata = Ok doc →
  ∃ p : list nat,
    p ≡ₚ seq 0 (nrows df) ∧
    Sorted Z.le (arr_values (np_take p (df_index df))) ∧
    doc_index doc = _make_bson_column (np_take p (df_index df)) ∧
    doc_columns doc =
      encode_columns
        (map (λ nc, (normalize nc.1, np_take p nc.2)) (df_columns df)).
Proof.
  intros Hok.
  destruct (_make_bson_doc_Ok _ _ _ _ Hok) as (_ & first & rest & _ & ->).
  exists (argsort (arr_values (df_index df))). simpl.
  split; [apply argsort_Permutation|]. split; [apply argsort_Sorted|].
  split; [done|]. f_equal. change (@map) with (@fmap list _).
  rewrite <- list_fmap_compose. by apply list_fmap_ext.
Qed.

Lemma C7_rows_ascending_witness :
  ∃ doc p,
    _make_bson_doc (L:=Toy.libraries) "u" Examples.t_ties ∅ = Ok doc ∧
    p ≡ₚ [0; 1; 2]%nat ∧
    doc_index doc =
      _make_bson_column (L:=Toy.libraries)
        (np_take p (df_index Examples.t_ties)).
Proof.
  destruct (_make_bson_doc (L:=Toy.libraries) "u" Examples.t_ties ∅)
    as [doc|e] eqn:E.
  - destruct (C7_rows_ascending Toy.libraries toy_sort_laws _ _ _ _ E)
      as (p & Hp & _ & Hi & _).
    exists doc, p. split; [reflexivity|]. split; [exact Hp|exact Hi].
  - vm_compute in E. discriminate E.
Defined.

(** As the specification states it, rows whose index values tie keep their
    relative order in the document.  With the argsort of [NumPy] a frame of
    eighteen rows, seventeen of which share one index value, is encoded
    with those rows in another order: the row at position 15 comes before
    the row at position 14, and the columns of the document are not those
    of the stable order. *)
Lemma C7_stable_counterexample :
  NumPy.argsort (arr_values (df_index Examples.t_eighteen))
    = [8; 15; 14; 13; 12; 11; 10; 9; 17; 7; 6; 5; 4; 3; 2; 1; 16; 0]%nat ∧
  stable_argsort (arr_values (df_index Examples.t_eighteen))
    = [1; 2; 3; 4; 5; 6; 7; 8; 9; 10; 11; 12; 13; 14; 15; 16; 17; 0]%nat ∧
  ∃ doc,
    _make_bson_doc (L:=Toy.numpy_sort) "u" Examples.t_eighteen ∅ = Ok doc ∧
    doc_index doc =
      _make_bson_column (L:=Toy.numpy_sort)
        (mk_ndarray datetime64_ns (replicate 17 1 ++ [2])) ∧
    doc_columns doc =
      encode_columns (L:=Toy.numpy_sort)
        [(Str "x", mk_ndarray "int64"
                     [8; 15; 14; 13; 12; 11; 10; 9; 17; 7; 6; 5; 4; 3; 2; 1;
                      16; 0])] ∧
    doc_columns doc ≠
      encode_columns (L:=Toy.numpy_sort)
        (df_columns
           (df_rename normalize
              (df_take (stable_argsort (arr_values (df_index Examples.t_eighteen)))
                       Examples.t_eighteen))).
Proof.
  split; [vm_compute; reflexivity|]. split; [vm_compute; reflexivity|].
  destruct (_make_bson_doc (L:=Toy.numpy_sort) "u" Examples.t_eighteen ∅)
    as [doc|e] eqn:E; [|vm_compute in E; discriminate E].
  exists doc. split; [reflexivity|].
  destruct (_make_bson_doc_Ok _ _ _ _ E) as (_ & first & rest & _ & ->).
  cbn [doc_index doc_columns].
  split; [vm_compute; reflexivity|]. split; [vm_compute; reflexivity|].
  vm_compute. discriminate.
Qed.

(** ** The read path *)

Lemma rmap_Ok_length {A B} (f : A → result B) (l : list A) (r : list B) :
  rmap f l = Ok r → length r = length l.
Proof.
  revert r. induction l as [|a l IH]; simpl; intros r H; [by inversion H|].
  destruct (f a); [|discriminate]. simpl in H.
  destruct (rmap f l); [|discriminate]. inversion H. simpl. by rewrite (IH _ eq_refl).
Qed.

Lemma rmap_Err_inv {A B} (f : A → result B) (l : list A) (e : exn) :
  rmap f l = Err e → ∃ a, a ∈ l ∧ f a = Err e.
Proof.
  induction l as [|a l IH]; simpl; intros H; [discriminate|].
  destruct (f a) eqn:E.
  - simpl in H. destruct (rmap f l); [discriminate|]. inversion H; subst.
    destruct IH as (a' & Hin & Ha'); [done|]. exists a'. split; [by right|done].
  - inversion H; subst. exists a. split; [left|done].
Qed.

Lemma rmap_fmap {A B C} (f : B → result C) (g : A → B) (l : list A) :
  rmap f (map g l) = rmap (λ a, f (g a)) l.
Proof. induction l as [|a l IH]; simpl; [done|]. by rewrite IH. Qed.

Lemma rmap_ext_in {A B} (f g : A → result B) (l : list A) :
  (∀ a, a ∈ l → f a = g a) → rmap f l = rmap g l.
Proof.
  induction l as [|a l IH]; simpl; intros H; [done|].
  rewrite (H a) by left. rewrite IH; [done|]. intros a' Ha'. apply H. by right.
Qed.

Lemma rmap_Ok_fmap {A B} (f : A → B) (l : list A) :
  rmap (λ a, Ok (f a)) l = Ok (map f l).
Proof. induction l as [|a l IH]; simpl; [done|]. by rewrite IH. Qed.

Section Read.
Context {L : Libraries}.



(** An array of objects is written, and refused when it is read. *)
Lemma _deserialize_serialize_object `{!CodecLaws L} `{!NoPickle L}
    (arr : ndarray) :
  arr_dtype arr = object_dtype →
  _deserialize_array (_serialize_array arr) = Err DecodeError.
Proof.
  intros Hd. unfold _deserialize_array, _serialize_array.
  by rewrite lz4_decompress_compress, np_load_object.
Qed.

Lemma _deserialize_array_Err (data : bytes) (e : exn) :
  _deserialize_array data = Err e → e = DecodeError.
Proof.
  unfold _deserialize_array. destruct (lz4_decompress data) as [raw|].
  - destruct (np_load raw); intros H; by inversion H.
  - intros H; by inversion H.
Qed.

Lemma sanitize_array_same (n : nat) (arr : ndarray) :
  length (arr_values arr) = n → sanitize_array n arr = Ok arr.
Proof. intros <-. unfold sanitize_array. by rewrite Nat.eqb_refl. Qed.

Lemma sanitize_array_Err (n : nat) (arr : ndarray) (e : exn) :
  sanitize_array n arr = Err e → e = ValueError.
Proof.
  unfold sanitize_array. destruct (Nat.eqb _ _); [discriminate|].
  destruct (arr_values arr) as [|x [|y l]]; intros H; by inversion H.
Qed.

Lemma sanitize_array_Ok (n : nat) (arr col : ndarray) :
  sanitize_array n arr = Ok col →
  length (arr_values col) = n ∧ arr_dtype col = arr_dtype arr.
Proof.
  unfold sanitize_array. destruct (Nat.eqb _ _) eqn:E.
  - intros [= <-]. by apply Nat.eqb_eq in E.
  - destruct (arr_values arr) as [|x [|y l]]; intros H; inversion H; subst.
    simpl. by rewrite length_replicate.
Qed.

Lemma pd_DataFrame_Ok (index : ndarray) (data : SON ndarray) (df : DataFrame) :
  pd_DataFrame index data = Ok df →
  df_index df = index ∧
  df_column_names df = Str <$> son_keys data ∧
  Forall2 (λ arr col, sanitize_array (length (arr_values index)) arr = Ok col)
          (son_values data) (df_columns df).*2.
Proof.
  unfold pd_DataFrame.
  destruct (rmap _ data) as [columns|e] eqn:E; simpl; [|discriminate].
  intros [= <-]. split; [done|]. unfold df_column_names. simpl.
  revert columns E. unfold son_keys, son_values.
  induction data as [|[k v] data IH]; simpl; intros columns E.
  - inversion E. by split; [|constructor].
  - destruct (sanitize_array _ v) as [col|] eqn:Es; simpl in E; [|discriminate].
    destruct (rmap _ data) as [cols|]; simpl in E; [|discriminate].
    inversion E; subst. destruct (IH _ eq_refl) as [IH1 IH2].
    split; [simpl; by f_equal|]. by constructor.
Qed.

Lemma pd_DataFrame_Err (index : ndarray) (data : SON ndarray) (e : exn) :
  pd_DataFrame index data = Err e → e = ValueError.
Proof.
  unfold pd_DataFrame.
  destruct (rmap _ data) as [columns|e'] eqn:E; simpl; [discriminate|].
  intros [= <-]. apply rmap_Err_inv in E as (kv & _ & Hkv).
  destruct (sanitize_array _ kv.2) eqn:Es; simpl in Hkv; [discriminate|].
  inversion Hkv; subst. by eapply sanitize_array_Err.
Qed.

Lemma pd_DataFrame_same_length (index : ndarray) (data : SON ndarray) :
  Forall (λ kv, length (arr_values kv.2) = length (arr_values index)) data →
  pd_DataFrame index data =
    Ok {| df_index := index;
          df_columns := map (λ kv, (Str kv.1, kv.2)) data |}.
Proof.
  intros H. unfold pd_DataFrame.
  assert (rmap (λ kv : string * ndarray,
                  arr <~ sanitize_array (length (arr_values index)) kv.2 ;;
                  Ok (Str kv.1, arr)) data
          = Ok (map (λ kv, (Str kv.1, kv.2)) data)) as ->; [|done].
  induction H as [|kv data Hkv H IH]; [done|].
  cbn [rmap map]. rewrite sanitize_array_same by done. cbn [rbind].
  by rewrite IH.
Qed.

Lemma rmap_Forall2 {A B} (f : A → result B) (l : list A) (r : list B) :
  rmap f l = Ok r ↔ Forall2 (λ a b, f a = Ok b) l r.
Proof.
  revert r. induction l as [|a l IH]; intros r; simpl.
  - split; [intros [= <-]; constructor|intros H; by inversion H].
  - split.
    + destruct (f a) as [b|] eqn:E; simpl; [|discriminate].
      destruct (rmap f l) as [bs|]; simpl; [|discriminate].
      intros [= <-]. constructor; [done|]. by apply IH.
    + intros H. inversion H as [|? b ? bs Hb Hbs]; subst. rewrite Hb. simpl.
      apply IH in Hbs. by rewrite Hbs.
Qed.

Lemma rmap_Exists_Err {A B} (f : A → result B) (l : list A) :
  Exists (λ a, ∃ e, f a = Err e) l → ∃ e, rmap f l = Err e.
Proof.
  induction 1 as [a l [e He]|a l _ [e IH]]; simpl.
  - rewrite He. eauto.
  - destruct (f a); simpl; [|eauto]. rewrite IH. eauto.
Qed.

Lemma zip_fmap_fst {A B C} (f : A → C) (l : list A) (k : list B) :
  zip (f <$> l) k = (λ x : A * B, (f x.1, x.2)) <$> zip l k.
Proof.
  revert k. induction l as [|a l IH]; intros [|b k]; simpl; [done..|].
  by rewrite IH.
Qed.

(** What is read is what the blobs decode to, under the document's keys. *)
Lemma _build_dataframe_decoded (doc : BsonDoc) (index : ndarray)
    (arrays : list ndarray) :
  decodes_to doc index arrays →
  NoDup (son_keys (doc_columns doc)) →
  Forall (λ arr, length (arr_values arr) = length (arr_values index)) arrays →
  _build_dataframe doc =
    Ok {| df_index := index;
          df_columns := zip (Str <$> son_keys (doc_columns doc)) arrays |}.
Proof.
  intros [Hi Hc] Hnd Hlen. unfold _build_dataframe. rewrite Hi. cbn [rbind].
  assert (Hl : length arrays = length (doc_columns doc)).
  { apply Forall2_length in Hc. unfold son_values in Hc.
    by rewrite length_fmap in Hc. }
  apply rmap_Forall2 in Hc. rewrite Hc. cbn [rbind].
  assert (Hk : (zip (son_keys (doc_columns doc)) arrays).*1
               = son_keys (doc_columns doc)).
  { apply fst_zip. unfold son_keys. rewrite length_fmap. lia. }
  rewrite ordered_dict_NoDup by (by rewrite Hk).
  rewrite pd_DataFrame_same_length.
  - do 2 f_equal. by rewrite zip_fmap_fst.
  - apply Forall_forall. intros [k a] Hin. simpl.
    rewrite Forall_forall in Hlen. apply Hlen.
    apply (list_elem_of_fmap_2 snd) in Hin. simpl in Hin.
    rewrite snd_zip in Hin; [done|]. unfold son_keys. rewrite length_fmap. lia.
Qed.

(** A frame is only returned when every blob decodes; its index is the
    decoded index blob and its columns are the decoded column blobs, each
    brought to the length of the index. *)
Lemma _build_dataframe_Ok (doc : BsonDoc) (df : DataFrame) :
  _build_dataframe doc = Ok df →
  ∃ index arrays,
    decodes_to doc index arrays ∧
    df_index df = index ∧
    (NoDup (son_keys (doc_columns doc)) →
     df_column_names df = Str <$> son_keys (doc_columns doc) ∧
     Forall2 (λ arr col, sanitize_array (length (arr_values index)) arr = Ok col)
             arrays (df_columns df).*2).
Proof.
  unfold _build_dataframe.
  destruct (_deserialize_array _) as [index|] eqn:Ei; simpl; [|discriminate].
  destruct (rmap _ _) as [arrays|] eqn:Ec; simpl; [|discriminate].
  intros Hdf. exists index, arrays. apply rmap_Forall2 in Ec.
  split; [by split|].
  destruct (pd_DataFrame_Ok _ _ _ Hdf) as (Hidx & Hnames & Hcols).
  split; [done|]. intros Hnd.
  assert (Hl : length arrays = length (doc_columns doc)).
  { apply Forall2_length in Ec. unfold son_values in Ec.
    by rewrite length_fmap in Ec. }
  rewrite ordered_dict_NoDup in Hnames, Hcols.
  - unfold son_keys at 1 in Hnames. unfold son_values in Hcols.
    rewrite fst_zip in Hnames by (unfold son_keys; rewrite length_fmap; lia).
    rewrite snd_zip in Hcols by (unfold son_keys; rewrite length_fmap; lia).
    done.
  - rewrite fst_zip; [done|]. unfold son_keys. rewrite length_fmap. lia.
  - rewrite fst_zip; [done|]. unfold son_keys. rewrite length_fmap. lia.
Qed.

Lemma _build_dataframe_Err (doc : BsonDoc) (e : exn) :
  _build_dataframe doc = Err e → e = DecodeError ∨ e = ValueError.
Proof.
  unfold _build_dataframe.
  destruct (_deserialize_array (col_data (doc_index doc))) as [index|e'] eqn:Ei; simpl.
  - destruct (rmap _ (son_values (doc_columns doc))) as [columns|e'] eqn:Ec; simpl.
    + intros H. right. by eapply pd_DataFrame_Err.
    + intros H; inversion H; subst. apply rmap_Err_inv in Ec as (c & _ & Hc).
      left. by eapply _deserialize_array_Err.
  - intros H; inversion H; subst. left. by eapply _deserialize_array_Err.
Qed.

(** The read fails with the decoders' error exactly when the index blob or
    a column blob is rejected. *)
Lemma _build_dataframe_DecodeError (doc : BsonDoc) :
  _build_dataframe doc = Err DecodeError ↔
  (∃ e, _deserialize_array (col_data (doc_index doc)) = Err e) ∨
  Exists (λ c, ∃ e, _deserialize_array (col_data c) = Err e)
         (son_values (doc_columns doc)).
Proof.
  unfold _build_dataframe. split.
  - destruct (_deserialize_array (col_data (doc_index doc))) as [index|e'] eqn:Ei;
      simpl; [|eauto].
    destruct (rmap _ (son_values (doc_columns doc))) as [columns|e'] eqn:Ec; simpl.
    + intros H. apply pd_DataFrame_Err in H. discriminate.
    + intros _. right. apply rmap_Err_inv in Ec as (c & Hin & Hc).
      apply Exists_exists. exists c. eauto.
  - intros [[e He]|Hex].
    + rewrite He. simpl. by rewrite (_deserialize_array_Err _ _ He).
    + destruct (_deserialize_array (col_data (doc_index doc))) as [index|e'] eqn:Ei;
        simpl; [|by rewrite (_deserialize_array_Err _ _ Ei)].
      destruct (rmap_Exists_Err _ _ Hex) as [e He]. rewrite He. simpl.
      apply rmap_Err_inv in He as (c & _ & Hc).
      by rewrite (_deserialize_array_Err _ _ Hc).
Qed.

Lemma _build_dataframe_replace_checksums (f : bytes → bytes) (doc : BsonDoc) :
  _build_dataframe (replace_checksums f doc) = _build_dataframe doc.
Proof.
  unfold _build_dataframe, replace_checksums, son_values, son_keys. simpl.
  change (@map) with (@fmap list _).
  rewrite <- !list_fmap_compose.
  assert (E1 : (snd ∘ (λ kv : string * BsonColumn,
                         (kv.1, with_sha1 kv.2 (f (col_sha1 kv.2))))) <$> doc_columns doc
               = map (λ c, with_sha1 c (f (col_sha1 c))) (doc_columns doc).*2).
  { change (@map) with (@fmap list _).
    rewrite <- list_fmap_compose. by apply list_fmap_ext. }
  rewrite E1, rmap_fmap. simpl.
  assert (E2 : (fst ∘ (λ kv : string * BsonColumn,
                         (kv.1, with_sha1 kv.2 (f (col_sha1 kv.2))))) <$> doc_columns doc
               = (doc_columns doc).*1) by (by apply list_fmap_ext).
  by rewrite E2.
Qed.

Lemma corrupt_column_keys (k i : nat) (doc : BsonDoc) :
  son_keys (doc_columns (corrupt_column k i doc)) = son_keys (doc_columns doc).
Proof.
  unfold corrupt_column, son_keys, SON. cbn [doc_columns].
  apply list_eq. intros j. rewrite !list_lookup_fmap.
  destruct (decide (j = k)) as [->|Hne].
  - rewrite list_lookup_alter_eq. by destruct (_ !! k) as [[? ?]|].
  - by rewrite list_lookup_alter_ne.
Qed.

(** A corrupted column blob that the decoders accept is read back: the
    frame holds the array the changed blob decodes to. *)
Lemma _build_dataframe_corrupt_column (doc : BsonDoc) (k i : nat)
    (key : string) (c : BsonColumn) (index : ndarray)
    (arrays : list ndarray) (a' : ndarray) :
  doc_columns doc !! k = Some (key, c) →
  decodes_to doc index arrays →
  _deserialize_array (flip_bit i (col_data c)) = Ok a' →
  NoDup (son_keys (doc_columns doc)) →
  Forall (λ arr, length (arr_values arr) = length (arr_values index)) arrays →
  length (arr_values a') = length (arr_values index) →
  _build_dataframe (corrupt_column k i doc) =
    Ok {| df_index := index;
          df_columns :=
            zip (Str <$> son_keys (doc_columns doc)) (<[k := a']> arrays) |}.
Proof.
  intros Hk [Hi Hc] Ha' Hnd Hlen Hla'.
  rewrite <- (corrupt_column_keys k i doc).
  apply _build_dataframe_decoded.
  - split; [done|]. unfold corrupt_column, son_values, SON in *.
    cbn [doc_columns doc_index].
    apply Forall2_lookup. intros j. rewrite list_lookup_fmap.
    assert (Hj := proj1 (Forall2_lookup _ _ _) Hc j).
    rewrite list_lookup_fmap in Hj.
    destruct (decide (j = k)) as [->|Hne].
    + rewrite list_lookup_alter_eq. rewrite Hk in Hj |- *. simpl in Hj |- *.
      inversion Hj as [? a Hca Heq1 Heq2|]; subst.
      rewrite list_lookup_insert_eq by (eapply lookup_lt_Some; eauto).
      by constructor.
    + rewrite list_lookup_alter_ne, list_lookup_insert_ne by done. exact Hj.
  - by rewrite corrupt_column_keys.
  - apply Forall_insert; done.
Qed.

End Read.

(** C3 (as the code has it): [_build_dataframe] decodes the index blob and
    every column blob and rebuilds the frame from the decoded arrays under
    the document's column keys, in their order; it never reads a stored
    checksum.
    - Replacing the checksums of a document changes nothing in what is read.
    - When the blobs decode to an index and to arrays of the index's length,
      the frame read is that index with those arrays under the document's
      keys.
    - A frame is returned only when every blob decodes, and it is made of
      the decoded arrays (an array of one element repeated to the length of
      the index, as pandas does).
    - The read raises the decoders' error exactly when a blob is rejected;
      the only other failure is ValueError for arrays that do not fit the
      index.
    - A corrupted column blob that still decodes, to an array of the
      index's length, is read without complaint: the frame holds the
      changed array. *)
Theorem C3_checksum_not_verified (L : Libraries) (doc : BsonDoc) :
  (∀ f, _build_dataframe (replace_checksums f doc) = _build_dataframe doc) ∧
  (∀ index arrays,
     decodes_to doc index arrays →
     NoDup (son_keys (doc_columns doc)) →
     Forall (λ arr, length (arr_values arr) = length (arr_values index)) arrays →
     _build_dataframe doc =
       Ok {| df_index := index;
             df_columns := zip (Str <$> son_keys (doc_columns doc)) arrays |}) ∧
  (∀ df, _build_dataframe doc = Ok df →
     ∃ index arrays,
       decodes_to doc index arrays ∧
       df_index df = index ∧
       (NoDup (son_keys (doc_columns doc)) →
        df_column_names df = Str <$> son_keys (doc_columns doc) ∧
        Forall2 (λ arr col,
                   sanitize_array (length (arr_values index)) arr = Ok col)
                arrays (df_columns df).*2)) ∧
  (_build_dataframe doc = Err DecodeError ↔
     (∃ e, _deserialize_array (col_data (doc_index doc)) = Err e) ∨
     Exists (λ c, ∃ e, _deserialize_array (col_data c) = Err e)
            (son_values (doc_columns doc))) ∧
  (∀ e, _build_dataframe doc = Err e → e = DecodeError ∨ e = ValueError) ∧
  (∀ k i key c index arrays a',
     doc_columns doc !! k = Some (key, c) →
     decodes_to doc index arrays →
     _deserialize_array (flip_bit i (col_data c)) = Ok a' →
     NoDup (son_keys (doc_columns doc)) →
     Forall (λ arr, length (arr_values arr) = length (arr_values index)) arrays →
     length (arr_values a') = length (arr_values index) →
     _build_dataframe (corrupt_column k i doc) =
       Ok {| df_index := index;
             df_columns :=
               zip (Str <$> son_keys (doc_columns doc)) (<[k := a']> arrays) |}).
Proof.
  split; [intros f; apply _build_dataframe_replace_checksums|].
  split; [apply _build_dataframe_decoded|].
  split; [apply _build_dataframe_Ok|].
  split; [apply _build_dataframe_DecodeError|].
  split; [apply _build_dataframe_Err|].
  intros k i key c index arrays a'. apply _build_dataframe_corrupt_column.
Qed.

Lemma C3_checksum_not_verified_witness :
  ∃ doc,
    _make_bson_doc (L:=Toy.libraries) "u" Examples.t_plain ∅ = Ok doc ∧
    _build_dataframe (L:=Toy.libraries) (corrupt_column 0 120 doc) =
      Ok {| df_index := mk_ndarray datetime64_ns [10; 20; 30];
            df_columns := [(Str "price", mk_ndarray "int64" [-2; 3; 1]);
                           (Str "volume", mk_ndarray "float64" [8; 9; 7])] |} ∧
    _build_dataframe (L:=Toy.libraries) (corrupt_column 0 1 doc)
      = Err DecodeError.
Proof.
  eexists. split; [vm_compute; reflexivity|]. split.
  - refine (proj2 (proj2 (proj2 (proj2 (proj2
              (C3_checksum_not_verified Toy.libraries _)))))
              0%nat 120%nat "price"%string
              (_make_bson_column (L:=Toy.libraries) (mk_ndarray "int64" [2; 3; 1]))
              (mk_ndarray datetime64_ns [10; 20; 30])
              [mk_ndarray "int64" [2; 3; 1]; mk_ndarray "float64" [8; 9; 7]]
              (mk_ndarray "int64" [-2; 3; 1]) _ _ _ _ _ _).
    + reflexivity.
    + split; [reflexivity|]. repeat constructor.
    + vm_compute. reflexivity.
    + apply (bool_decide_unpack _). vm_compute. exact I.
    + repeat constructor.
    + reflexivity.
  - apply (proj1 (proj2 (proj2 (proj2
              (C3_checksum_not_verified Toy.libraries _))))).
    right. apply Exists_cons_hd. exists DecodeError. vm_compute. reflexivity.
Defined.

(** As the specification states it: every single-bit corruption of a column's blob
    makes the read fail.  With a codec that reads back what it wrote there
    is a document and a bit whose inversion changes the blob, leaves the
    stored checksum stale, and is read back as a frame. *)
Lemma C3_bit_flip_counterexample :
  ¬ ∀ (L : Libraries), CodecLaws L →
      ∀ uid df metadata doc k c i,
        _make_bson_doc uid df metadata = Ok doc →
        doc_columns doc !! k = Some c →
        (i < 8 * length (col_data c.2))%nat →
        ∃ e, _build_dataframe (corrupt_column k i doc) = Err e.
Proof.
  intros H.
  destruct (_make_bson_doc (L:=Toy.libraries) "u" Examples.t_plain ∅)
    as [doc|e] eqn:E; [|vm_compute in E; discriminate E].
  destruct (_make_bson_doc_Ok _ _ _ _ E) as (_ & first & rest & _ & Hdoc).
  destruct (doc_columns doc !! 0%nat) as [c|] eqn:Ec;
    [|rewrite Hdoc in Ec; vm_compute in Ec; discriminate Ec].
  destruct (H Toy.libraries toy_codec_laws _ _ _ doc 0%nat c 120%nat E Ec)
    as [e He].
  - rewrite Hdoc in Ec. vm_compute in Ec. inversion Ec; subst c. vm_compute. lia.
  - rewrite Hdoc in He. vm_compute in He. discriminate He.
Qed.

(** ** Concatenation *)

Lemma elem_of_union_names (acc names : list label) (n : label) :
  n ∈ union_names acc names ↔ n ∈ acc ∨ n ∈ names.
Proof.
  revert acc. induction names as [|m names IH]; intros acc; cbn [union_names].
  - rewrite elem_of_nil. tauto.
  - rewrite IH, elem_of_cons. destruct (decide (m ∈ acc)) as [Hin|Hnin].
    + split; [tauto|]. intros [H|[->|H]]; tauto.
    + rewrite elem_of_app, list_elem_of_singleton. tauto.
Qed.

Lemma elem_of_concat {A} (x : A) (ls : list (list A)) :
  x ∈ concat ls ↔ ∃ l, x ∈ l ∧ l ∈ ls.
Proof.
  rewrite list_elem_of_In, in_concat. split.
  - intros (l & Hl & Hx). exists l. by rewrite !list_elem_of_In.
  - intros (l & Hx & Hl). exists l. by rewrite <- !list_elem_of_In.
Qed.

Lemma df_take_column_names (p : list nat) (df : DataFrame) :
  df_column_names (df_take p df) = df_column_names df.
Proof.
  unfold df_column_names, df_take. simpl. rewrite <- list_fmap_compose.
  by apply list_fmap_ext.
Qed.

Section Concat.
Context {L : Libraries}.

Lemma pd_concat_column_names (frames : list DataFrame) (df : DataFrame) (n : label) :
  pd_concat frames = Ok df →
  n ∈ df_column_names df ↔ ∃ f, f ∈ frames ∧ n ∈ df_column_names f.
Proof.
  unfold pd_concat. destruct frames as [|f0 frames]; [discriminate|].
  intros H. inversion H; subst; clear H. unfold df_column_names at 1. simpl.
  rewrite <- list_fmap_compose.
  assert (E : ∀ l : list label,
    (fst ∘ (λ n0 : label, (n0, concat_column (f0 :: frames) n0))) <$> l = l).
  { intros l. induction l as [|a l IH]; [done|]. rewrite fmap_cons. by rewrite IH. }
  rewrite E, elem_of_union_names, elem_of_nil.
  change (df_column_names f0 ++ concat (map df_column_names frames))
    with (concat (map df_column_names (f0 :: frames))).
  split.
  - intros [[]|Hin]. apply elem_of_concat in Hin as (names & Hn & Hnames).
    apply list_elem_of_fmap in Hnames as (f & -> & Hf). eauto.
  - intros (f & Hf & Hn). right. apply elem_of_concat.
    exists (df_column_names f). split; [done|]. apply list_elem_of_fmap. eauto.
Qed.

Lemma pd_concat_nonempty (frames : list DataFrame) :
  frames ≠ [] → ∃ df, pd_concat frames = Ok df.
Proof. destruct frames; [done|]. intros _. unfold pd_concat. eauto. Qed.

Lemma build_dataframe_Err (docs : list BsonDoc) (e : exn) :
  build_dataframe docs = Err e →
  (docs = [] ∧ e = ValueError) ∨
  (∃ doc, doc ∈ docs ∧ _build_dataframe doc = Err e).
Proof.
  unfold build_dataframe.
  destruct (rmap _build_dataframe docs) as [frames|e'] eqn:E; cbn [rbind].
  - destruct frames as [|f frames]; cbn [pd_concat rbind]; [|discriminate].
    intros H. inversion H. left. split; [|done].
    apply rmap_Ok_length in E. by destruct docs.
  - intros H. inversion H; subst. right. by apply rmap_Err_inv.
Qed.

End Concat.

(** C5 (as the code has it): [build_dataframe] does not compare the column
    sets of the documents.  When every document decodes, it returns a frame
    whose columns are the union of the documents' columns; it fails only on
    an empty collection (ValueError, nothing to concatenate) or with the
    failure of reading one of the documents. *)
Theorem C5_no_schema_check (L : Libraries) (docs : list BsonDoc) :
  (∀ frames,
     rmap _build_dataframe docs = Ok frames → docs ≠ [] →
     ∃ df, build_dataframe docs = Ok df ∧
           ∀ n, n ∈ df_column_names df ↔
                ∃ f, f ∈ frames ∧ n ∈ df_column_names f) ∧
  (∀ e, build_dataframe docs = Err e →
        (docs = [] ∧ e = ValueError) ∨
        (∃ doc, doc ∈ docs ∧ _build_dataframe doc = Err e)).
Proof.
  split; [|apply build_dataframe_Err].
  intros frames Hf Hne. unfold build_dataframe. rewrite Hf. cbn [rbind].
  destruct (pd_concat_nonempty frames) as [df Hdf].
  { apply rmap_Ok_length in Hf. destruct frames; [by destruct docs|done]. }
  rewrite Hdf. cbn [rbind]. eexists. split; [done|]. intros n.
  unfold sort_index. rewrite df_take_column_names.
  by apply pd_concat_column_names.
Qed.

Lemma C5_no_schema_check_witness :
  ∃ d1 d2 df,
    _make_bson_doc (L:=Toy.libraries) "u" Examples.t_left ∅ = Ok d1 ∧
    _make_bson_doc (L:=Toy.libraries) "u" Examples.t_right ∅ = Ok d2 ∧
    build_dataframe (L:=Toy.libraries) [d1; d2] = Ok df ∧
    Str "a" ∈ df_column_names df ∧ Str "b" ∈ df_column_names df.
Proof.
  destruct (_make_bson_doc (L:=Toy.libraries) "u" Examples.t_left ∅)
    as [d1|e] eqn:E1; [|vm_compute in E1; discriminate E1].
  destruct (_make_bson_doc (L:=Toy.libraries) "u" Examples.t_right ∅)
    as [d2|e] eqn:E2; [|vm_compute in E2; discriminate E2].
  destruct (_make_bson_doc_Ok _ _ _ _ E1) as (_ & ? & ? & _ & H1).
  destruct (_make_bson_doc_Ok _ _ _ _ E2) as (_ & ? & ? & _ & H2).
  destruct (rmap (_build_dataframe (L:=Toy.libraries)) [d1; d2])
    as [frames|e] eqn:Ef; [|rewrite H1, H2 in Ef; vm_compute in Ef; discriminate Ef].
  destruct (proj1 (C5_no_schema_check Toy.libraries [d1; d2]) frames Ef)
    as (df & Hdf & Hn); [done|].
  exists d1, d2, df. split; [reflexivity|]. split; [reflexivity|].
  split; [exact Hdf|].
  rewrite H1, H2 in Ef. vm_compute in Ef. inversion Ef; subst frames.
  split.
  - apply Hn. eexists. split; [apply list_elem_of_here|]. vm_compute. left.
  - apply Hn. eexists. split; [apply list_elem_of_further, list_elem_of_here|].
    vm_compute. left.
Defined.

(** As the specification states it: documents whose column sets differ make
    [build_dataframe] fail. *)
Lemma C5_schema_counterexample :
  ¬ ∀ (L : Libraries), CodecLaws L →
      ∀ docs d1 d2 n,
        d1 ∈ docs → d2 ∈ docs →
        n ∈ son_keys (doc_columns d1) → n ∉ son_keys (doc_columns d2) →
        ∃ e, build_dataframe docs = Err e.
Proof.
  intros H.
  destruct (_make_bson_doc (L:=Toy.libraries) "u" Examples.t_left ∅)
    as [d1|e] eqn:E1; [|vm_compute in E1; discriminate E1].
  destruct (_make_bson_doc (L:=Toy.libraries) "u" Examples.t_right ∅)
    as [d2|e] eqn:E2; [|vm_compute in E2; discriminate E2].
  destruct (_make_bson_doc_Ok _ _ _ _ E1) as (_ & ? & ? & _ & H1).
  destruct (_make_bson_doc_Ok _ _ _ _ E2) as (_ & ? & ? & _ & H2).
  destruct (H Toy.libraries toy_codec_laws [d1; d2] d1 d2 "a"%string) as [e He].
  - left.
  - right. left.
  - rewrite H1. vm_compute. left.
  - rewrite H2. vm_compute. intros Hin. apply list_elem_of_singleton in Hin.
    discriminate Hin.
  - rewrite H1, H2 in He. vm_compute in He. discriminate He.
Qed.

(** ** Taking rows: slices, compositions, permutations *)











(** ** Reading back what was written *)





Section RoundTrip.
Context {L : Libraries}.





Lemma prepared_object (df : DataFrame) :
  has_object_column df → has_object_column (prepared df).
Proof.
  unfold has_object_column. rewrite !Exists_exists.
  intros (nc & Hin & Hd).
  exists (normalize nc.1, np_take (argsort (arr_values (df_index df))) nc.2).
  split; [|done].
  unfold prepared, df_rename, sort_index, df_take. simpl.
  apply list_elem_of_fmap.
  exists (nc.1, np_take (argsort (arr_values (df_index df))) nc.2).
  split; [done|]. apply list_elem_of_fmap. by exists nc.
Qed.





(** A document written for a frame with a column of objects cannot be
    read. *)
Lemma _build_dataframe_object `{!CodecLaws L} `{!NoPickle L} (uid : string)
    (df : DataFrame) (metadata : gmap string bson_value) (doc : BsonDoc) :
  _make_bson_doc uid df metadata = Ok doc →
  has_object_column df →
  _build_dataframe doc = Err DecodeError.
Proof.
  intros Hok Hobj.
  destruct (_make_bson_doc_Ok _ _ _ _ Hok) as (_ & first & rest & _ & ->).
  apply _build_dataframe_DecodeError. right. cbn [doc_columns].
  apply prepared_object in Hobj. unfold has_object_column in Hobj.
  apply Exists_exists in Hobj as (nc & Hin & Hd).
  apply Exists_exists. exists (_make_bson_column nc.2). split.
  - unfold son_values, encode_columns. apply list_elem_of_fmap.
    exists (py_str nc.1, _make_bson_column nc.2). split; [done|].
    apply list_elem_of_fmap. by exists nc.
  - exists DecodeError. by apply _deserialize_serialize_object.
Qed.



End RoundTrip.

(** ** The parts of a split and their reassembly *)

Section Sections.
Context {L : Libraries}.

Lemma np_array_split_Ok (df : DataFrame) (k : pyfloat) (sub_dfs : list DataFrame) :
  np_array_split df k = Ok sub_dfs →
  ∃ sizes, sub_dfs = split_sections df 0 sizes ∧ sizes ≠ [] ∧
           sum_list sizes = nrows df.
Proof.
  unfold np_array_split. destruct (py_int k) as [N|e]; cbn [rbind]; [|discriminate].
  destruct (N <=? 0) eqn:EN; [discriminate|]. apply Z.leb_gt in EN.
  intros H. inversion H; subst; clear H. eexists. split; [reflexivity|].
  set (Ntotal := Z.of_nat (nrows df)).
  assert (Hdm := Z.div_mod Ntotal N ltac:(lia)).
  assert (Hmod := Z.mod_pos_bound Ntotal N EN).
  assert (Hdiv : 0 ≤ Ntotal / N) by (apply Z.div_pos; lia).
  split.
  - intros Hnil. apply (f_equal length) in Hnil.
    rewrite length_app, !length_replicate in Hnil. simpl in Hnil. lia.
  - rewrite sum_list_with_app, !sum_list_replicate. apply Nat2Z.inj.
    rewrite Nat2Z.inj_add, !Nat2Z.inj_mul, !Z2Nat.id by lia. fold Ntotal. nia.
Qed.






End Sections.



Section Assemble.
Context {L : Libraries} `{!CodecLaws L} `{!SortLaws L} `{!ConcatLaws L}.




End Assemble.





(** * Further properties of the module *)

(** ** Documents *)





Lemma map_nth_seq_Z (l : list Z) :
  map (λ i, nth i l 0) (seq 0 (length l)) = l.
Proof.
  induction l as [|a l IH]; [done|]. cbn [length seq map nth]. f_equal.
  rewrite <- seq_shift, map_map. exact IH.
Qed.

Lemma sorted_values_Permutation (L : Libraries) (HS : SortLaws L) (df : DataFrame) :
  arr_values (df_index (prepared df)) ≡ₚ arr_values (df_index df).
Proof.
  unfold prepared, sort_index, df_rename, df_take, np_take. simpl.
  rewrite (argsort_Permutation (arr_values (df_index df))).
  by rewrite map_nth_seq_Z.
Qed.

Lemma StronglySorted_le_last (l : list Z) (d : Z) :
  StronglySorted Z.le l → ∀ x, x ∈ l → x ≤ List.last l d.
Proof.
  induction 1 as [|a l Hl IH Ha]; intros x Hx; [by apply elem_of_nil in Hx|].
  destruct l as [|b l].
  - apply list_elem_of_singleton in Hx. subst. simpl. lia.
  - change (List.last (a :: b :: l) d) with (List.last (b :: l) d).
    apply elem_of_cons in Hx as [->|Hx]; [|by apply IH].
    transitivity b; [by apply Forall_cons in Ha as [? _]|].
    apply IH. left.
Qed.

Lemma last_elem_of (l : list Z) (d : Z) : l ≠ [] → List.last l d ∈ l.
Proof.
  induction l as [|a l IH]; [done|]. intros _. destruct l as [|b l]; [left|].
  right. change (List.last (a :: b :: l) d) with (List.last (b :: l) d).
  by apply IH.
Qed.

(** X3: the time span of a returned document.  [start] and [end] are index
    values of the frame, and every index value of the frame lies between
    them; in particular start <= end. *)
Theorem X3_document_time_span (L : Libraries) (HS : SortLaws L) (uid : string)
    (df : DataFrame) (metadata : gmap string bson_value) (doc : BsonDoc) :
  _make_bson_doc uid df metadata = Ok doc →
  doc_start doc ∈ arr_values (df_index df) ∧
  doc_end doc ∈ arr_values (df_index df) ∧
  doc_start doc ≤ doc_end doc ∧
  ∀ t, t ∈ arr_values (df_index df) → doc_start doc ≤ t ≤ doc_end doc.
Proof.
  intros Hok.
  destruct (_make_bson_doc_Ok _ _ _ _ Hok) as (_ & first & rest & Hv & ->).
  cbn [doc_start doc_end].
  assert (Hperm := sorted_values_Permutation L HS df). rewrite Hv in Hperm.
  assert (Hsorted : StronglySorted Z.le (first :: rest)).
  { apply Sorted_StronglySorted; [apply _|]. rewrite <- Hv.
    unfold prepared, sort_index, df_rename, df_take, np_take. simpl.
    apply argsort_Sorted. }
  assert (Hlast : List.last (first :: rest) first ∈ first :: rest)
    by (by apply last_elem_of).
  assert (Hbounds : ∀ t, t ∈ first :: rest →
                         first ≤ t ≤ List.last (first :: rest) first).
  { intros t Ht. split; [|by apply StronglySorted_le_last].
    apply elem_of_cons in Ht as [->|Ht]; [lia|].
    apply StronglySorted_inv in Hsorted as [_ Hall].
    rewrite Forall_forall in Hall. by apply Hall. }
  split; [rewrite <- Hperm; apply list_elem_of_here|].
  split; [by rewrite <- Hperm|].
  split; [apply Hbounds, list_elem_of_here|].
  intros t Ht. apply Hbounds. by rewrite Hperm.
Qed.

Lemma X3_document_time_span_witness :
  ∃ doc,
    _make_bson_doc (L:=Toy.libraries) "u" Examples.t_plain ∅ = Ok doc ∧
    doc_start doc ≤ 20 ≤ doc_end doc.
Proof.
  destruct (_make_bson_doc (L:=Toy.libraries) "u" Examples.t_plain ∅)
    as [doc|e] eqn:E; [|vm_compute in E; discriminate E].
  exists doc. split; [reflexivity|].
  apply (X3_document_time_span Toy.libraries _ _ _ _ _ E).
  apply list_elem_of_further, list_elem_of_further, list_elem_of_here.
Defined.

(** ** Splitting *)

Lemma rmap_Ok_elem {A B} (f : A → result B) (l : list A) (r : list B) (b : B) :
  rmap f l = Ok r → b ∈ r → ∃ a, a ∈ l ∧ f a = Ok b.
Proof.
  revert r. induction l as [|a l IH]; intros r H Hb; cbn [rmap] in H.
  - inversion H; subst. by apply elem_of_nil in Hb.
  - destruct (f a) as [b'|] eqn:E; cbn [rbind] in H; [|discriminate].
    destruct (rmap f l) as [r'|]; cbn [rbind] in H; [|discriminate].
    inversion H; subst. apply elem_of_cons in Hb as [->|Hb].
    + exists a. split; [left|done].
    + destruct (IH r' eq_refl Hb) as (a' & Ha' & Hf). exists a'. split; [by right|done].
Qed.

Lemma built_nrows (L : Libraries) (HS : SortLaws L) (uid : string)
    (df : DataFrame) (metadata : gmap string bson_value) (doc : BsonDoc) :
  _make_bson_doc uid df metadata = Ok doc →
  doc_metadata doc !! "nrows" = Some (BInt (Z.of_nat (nrows df))).
Proof.
  intros Hok.
  destruct (_make_bson_doc_Ok _ _ _ _ Hok) as (_ & first & rest & _ & ->).
  cbn [doc_metadata]. apply lookup_union_Some_l. rewrite lookup_insert_eq.
  do 3 f_equal. unfold nrows.
  by rewrite (Permutation_length (sorted_values_Permutation L HS df)).
Qed.

Lemma sections_nrows (L : Libraries) (HS : SortLaws L) (uid : string)
    (df : DataFrame) (metadata : gmap string bson_value)
    (sizes : list nat) (st : nat) (docs : list BsonDoc) :
  (st + sum_list sizes ≤ nrows df)%nat →
  rmap (λ s, _make_bson_doc uid s metadata) (split_sections df st sizes) = Ok docs →
  Forall2 (λ doc n, doc_metadata doc !! "nrows" = Some (BInt (Z.of_nat n)))
          docs sizes.
Proof.
  revert st docs. induction sizes as [|n sizes IH]; intros st docs Hle Hdocs.
  - inversion Hdocs. constructor.
  - cbn [split_sections rmap] in Hdocs.
    change (sum_list (n :: sizes)) with (n + sum_list sizes)%nat in *.
    destruct (_make_bson_doc uid (df_slice st n df) metadata) as [doc|e] eqn:E;
      cbn [rbind] in Hdocs; [|discriminate].
    destruct (rmap _ (split_sections df (st + n) sizes)) as [docs'|e] eqn:E';
      cbn [rbind] in Hdocs; [|discriminate].
    inversion Hdocs; subst; clear Hdocs. constructor.
    + rewrite (built_nrows L HS _ _ _ _ E). do 3 f_equal.
      unfold nrows, df_slice, np_slice. simpl. unfold nrows in Hle.
      rewrite length_take, length_drop. lia.
    + apply (IH (st + n)%nat); [lia|done].
Qed.

(** X4: no row is lost or duplicated by the split.  The documents that
    [make_bson_docs] returns are at least one, and the row counts they
    record under "nrows" add up to the number of rows of the frame. *)
Theorem X4_rows_conserved (L : Libraries) (HS : SortLaws L) (depth : nat)
    (uid : string) (df : DataFrame) (metadata : gmap string bson_value)
    (max_size : pyfloat) (docs : list BsonDoc) :
  make_bson_docs depth uid df metadata max_size = Ok docs →
  docs ≠ [] ∧
  ∃ counts : list nat,
    Forall2 (λ doc n, doc_metadata doc !! "nrows" = Some (BInt (Z.of_nat n)))
            docs counts ∧
    sum_list counts = nrows df.
Proof.
  intros Hok.
  destruct (make_bson_docs_Ok_inv _ _ _ _ _ _ Hok) as (size & sub_dfs & Hsplit & Hdocs).
  unfold split_dataframes in Hsplit.
  apply np_array_split_Ok in Hsplit as (sizes & -> & Hne & Hsum).
  assert (H2 := sections_nrows L HS uid df metadata sizes 0 docs ltac:(lia) Hdocs).
  split; [|by exists sizes].
  intros ->. apply Forall2_nil_inv_l in H2. done.
Qed.

Lemma X4_rows_conserved_witness :
  ∃ docs,
    make_bson_docs (L:=Toy.libraries) 1 "u" Examples.t_plain ∅ (Fin (30 # 1))
      = Ok docs ∧
    ∃ counts : list nat,
      Forall2 (λ doc n, doc_metadata doc !! "nrows" = Some (BInt (Z.of_nat n)))
              docs counts ∧
      sum_list counts = 3%nat.
Proof.
  destruct (make_bson_docs (L:=Toy.libraries) 1 "u" Examples.t_plain ∅
              (Fin (30 # 1))) as [docs|e] eqn:E;
    [|vm_compute in E; discriminate E].
  exists docs. split; [reflexivity|].
  exact (proj2 (X4_rows_conserved Toy.libraries _ _ _ _ _ _ _ E)).
Defined.

(** X5: every document that [make_bson_docs] returns respects the size
    limit: the [binary_size] it records is at most 15,938,355 bytes, the
    largest integer not above 0.95 * MAX_BSON_SIZE. *)
Theorem X5_all_documents_bounded (L : Libraries) (depth : nat) (uid : string)
    (df : DataFrame) (metadata : gmap string bson_value) (max_size : pyfloat)
    (docs : list BsonDoc) :
  make_bson_docs depth uid df metadata max_size = Ok docs →
  ∀ doc, doc ∈ docs →
    ∃ binary_size,
      doc_metadata doc !! "binary_size" = Some (BInt binary_size) ∧
      binary_size ≤ 15938355.
Proof.
  intros Hok doc Hdoc.
  destruct (make_bson_docs_Ok_inv _ _ _ _ _ _ Hok) as (size & sub_dfs & _ & Hdocs).
  destruct (rmap_Ok_elem _ _ _ _ Hdocs Hdoc) as (s & _ & Hs).
  destruct (built_binary_size _ _ _ _ Hs) as [Hbs Hfgt].
  eexists. split; [exact Hbs|].
  destruct (Z_le_gt_dec (compressed_size (prepared s)) 15938355) as [|Hgt]; [done|].
  assert (Hlt : (size_threshold < inject_Z (compressed_size (prepared s)))%Q)
    by (apply size_threshold_bytes; lia).
  apply fgt_threshold in Hlt. congruence.
Qed.

Lemma X5_all_documents_bounded_witness :
  ∃ docs,
    make_bson_docs (L:=Toy.libraries) 1 "u" Examples.t_plain ∅ (Fin (30 # 1))
      = Ok docs ∧
    ∀ doc, doc ∈ docs →
      ∃ binary_size,
        doc_metadata doc !! "binary_size" = Some (BInt binary_size) ∧
        binary_size ≤ 15938355.
Proof.
  destruct (make_bson_docs (L:=Toy.libraries) 1 "u" Examples.t_plain ∅
              (Fin (30 # 1))) as [docs|e] eqn:E;
    [|vm_compute in E; discriminate E].
  exists docs. split; [reflexivity|].
  exact (X5_all_documents_bounded Toy.libraries _ _ _ _ _ _ E).
Defined.

Lemma np_array_split_Err (df : DataFrame) (k : pyfloat) (e : exn) :
  np_array_split df k = Err e → e = ValueError ∨ e = OverflowError.
Proof.
  unfold np_array_split. destruct k as [q| | |]; cbn [py_int rbind].
  - destruct (_ <=? 0); intros H; inversion H. by left.
  - intros H; inversion H. by right.
  - intros H; inversion H. by right.
  - intros H; inversion H. by left.
Qed.

(** X6: InvalidBSON does not leave [make_bson_docs].  Whatever the frame,
    the metadata, the size and the depth of recursion, the exception that
    [_make_bson_doc] raises for an oversized part is caught by the loop,
    which retries or raises AssertionError. *)
Theorem X6_InvalidBSON_contained (L : Libraries) (depth : nat) (uid : string)
    (df : DataFrame) (metadata : gmap string bson_value) (max_size : pyfloat)
    (binary_size : Z) (ratio : pyfloat) :
  make_bson_docs depth uid df metadata max_size
  ≠ Err (InvalidBSON binary_size ratio).
Proof.
  revert max_size. induction depth as [|depth IH]; intros max_size; [done|].
  cbn [make_bson_docs].
  destruct (split_dataframes df max_size) as [sub_dfs|e] eqn:E; cbn [rbind].
  - clear E. generalize (@nil BsonDoc).
    induction sub_dfs as [|s rest IHs]; intros acc; cbn [docs_loop]; [done|].
    destruct (_make_bson_doc uid s metadata) as [doc|ex]; [apply IHs|].
    destruct ex; try done.
    match goal with |- context [fgt ?a ?b] => destruct (fgt a b) end;
      [apply IH|done].
  - intros H. inversion H; subst.
    unfold split_dataframes in E. apply np_array_split_Err in E as [E|E]; done.
Qed.

(** X7: a frame whose index is not a DatetimeIndex is never encoded.
    [_make_bson_doc] raises ValueError for it whatever else holds, and
    [make_bson_docs] returns no document: it raises ValueError, or
    OverflowError when the number of sections is infinite. *)
Theorem X7_index_must_be_datetime (L : Libraries) (uid : string)
    (df : DataFrame) (metadata : gmap string bson_value) :
  is_DatetimeIndex (df_index df) = false →
  _make_bson_doc uid df metadata = Err ValueError ∧
  ∀ depth max_size,
    make_bson_docs (S depth) uid df metadata max_size = Err ValueError ∨
    make_bson_docs (S depth) uid df metadata max_size = Err OverflowError.
Proof.
  intros Hidx. split; [by apply _make_bson_doc_not_datetime|].
  intros depth max_size. cbn [make_bson_docs].
  destruct (split_dataframes df max_size) as [sub_dfs|e] eqn:E; cbn [rbind].
  - left. unfold split_dataframes in E.
    apply np_array_split_Ok in E as (sizes & -> & Hne & _).
    destruct sizes as [|n sizes]; [done|]. cbn [split_sections docs_loop].
    by rewrite _make_bson_doc_not_datetime.
  - unfold split_dataframes in E. apply np_array_split_Err in E as [->| ->]; eauto.
Qed.

Lemma X7_index_must_be_datetime_witness :
  _make_bson_doc (L:=Toy.libraries) "u" Examples.t_range_index ∅ = Err ValueError ∧
  make_bson_docs (L:=Toy.libraries) 1 "u" Examples.t_range_index ∅ default_max_size
    = Err ValueError.
Proof.
  destruct (X7_index_must_be_datetime Toy.libraries "u" Examples.t_range_index ∅
              eq_refl) as [H1 H2].
  split; [exact H1|].
  destruct (H2 O default_max_size) as [H|H]; [exact H|].
  vm_compute in H. discriminate H.
Defined.

Lemma df_getitem_nonempty (df : DataFrame) (col : label) :
  col ∈ df_column_names df → df_getitem df col ≠ [].
Proof.
  unfold df_column_names, df_getitem. intros Hin Hnil.
  apply list_elem_of_fmap in Hin as ([n a] & -> & Hin).
  apply fmap_nil_inv in Hnil.
  assert (Hf : (n, a) ∈ filter (λ nc : label * ndarray, nc.1 = n) (df_columns df))
    by (by apply list_elem_of_filter).
  simpl in Hnil. rewrite Hnil in Hf. by apply elem_of_nil in Hf.
Qed.

Lemma make_columns_Err (L : Libraries) (df : DataFrame) (cols : list label)
    (acc : SON BsonColumn) (e : exn) :
  (∀ c, c ∈ cols → c ∈ df_column_names df) →
  (length (df_getitem df (Str "dtype")) ≤ 1)%nat →
  make_columns df cols acc = Err e → e = AttributeError.
Proof.
  intros Hin Hd. revert acc Hin.
  induction cols as [|col cols IH]; intros acc Hin H; [discriminate|].
  cbn [make_columns] in H.
  assert (Hne := df_getitem_nonempty df col (Hin col (list_elem_of_here _ _))).
  destruct (df_getitem df col) as [|s [|s' rest]] eqn:E; [done| |].
  - apply (IH _ (λ c Hc, Hin c (list_elem_of_further _ _ _ Hc)) H).
  - destruct (bool_decide (col = Str "dtype")) eqn:Ed; [|by inversion H].
    apply bool_decide_eq_true in Ed. subst col. rewrite E in Hd.
    simpl in Hd. lia.
Qed.

Lemma df_getitem_prepared_dtype (L : Libraries) (df : DataFrame) :
  length (df_getitem (prepared df) (Str "dtype")) =
  length (filter (λ x, normalized_name x = "dtype"%string) (df_column_names df)).
Proof.
  unfold df_getitem, prepared, df_rename, sort_index, df_take, df_column_names.
  cbn [df_columns]. rewrite length_fmap.
  generalize (argsort (arr_values (df_index df))). intros p.
  induction (df_columns df) as [|[x a] cols IH]; [done|].
  cbn [map fmap list_fmap fst snd]. rewrite !filter_cons. cbn [fst].
  destruct (decide (normalized_name x = "dtype"%string)) as [Hx|Hx].
  - rewrite decide_True by (unfold normalize; by rewrite Hx).
    cbn [length]. f_equal. exact IH.
  - rewrite decide_False by (unfold normalize; congruence). exact IH.
Qed.

(** X8: column names that collide after normalisation.  When two columns
    of a frame with a DatetimeIndex carry the same name once the dots are
    removed, and the name "dtype" is not among the repeated ones,
    [_make_bson_doc] raises AttributeError: the selection [df[col]] is then
    a DataFrame, which has no attribute [dtype]. *)
Theorem X8_colliding_names (L : Libraries) (uid : string) (df : DataFrame)
    (metadata : gmap string bson_value) :
  is_DatetimeIndex (df_index df) = true →
  ¬ NoDup (map normalized_name (df_column_names df)) →
  ¬ repeats_dtype df →
  _make_bson_doc uid df metadata = Err AttributeError.
Proof.
  intros Hidx Hdup Hdtype. unfold _make_bson_doc. rewrite Hidx. cbn [negb].
  fold (prepared df).
  destruct (make_columns (prepared df) (df_column_names (prepared df)) [])
    as [columns|e] eqn:E; cbn [rbind].
  - exfalso. apply Hdup. apply prepared_NoDup.
    by eapply make_columns_NoDup.
  - f_equal. eapply make_columns_Err; [|  |exact E]; [done|].
    rewrite df_getitem_prepared_dtype. unfold repeats_dtype in Hdtype. lia.
Qed.

Lemma X8_colliding_names_witness :
  _make_bson_doc (L:=Toy.libraries) "u" Examples.t_colliding ∅ = Err AttributeError.
Proof.
  apply (X8_colliding_names Toy.libraries "u" Examples.t_colliding ∅ eq_refl).
  - intros Hnd. apply NoDup_cons in Hnd as [Hnin _]. apply Hnin. left.
  - unfold repeats_dtype. vm_compute. lia.
Defined.

(** ** Reassembly *)






(** ** One part, and a part that cannot shrink *)

Lemma df_slice_whole (df : DataFrame) :
  df_wf df → df_slice 0 (nrows df) df = df.
Proof.
  intros Hwf. destruct df as [[d vs] cols]. unfold df_wf, nrows in *.
  cbn [df_index df_columns arr_values] in *. unfold df_slice, np_slice.
  cbn [df_index df_columns arr_values arr_dtype]. f_equal.
  - f_equal. by rewrite drop_0, firstn_all.
  - induction Hwf as [|[n [d' vs']] cols Hlen _ IH]; [done|].
    cbn [map fst snd arr_values arr_dtype]. f_equal; [|exact IH].
    cbn [snd arr_values] in Hlen. do 2 f_equal.
    rewrite drop_0, <- Hlen. apply firstn_all.
Qed.

Lemma np_array_split_single_row (df : DataFrame) (k : pyfloat)
    (parts : list DataFrame) :
  nrows df = 1%nat → np_array_split df k = Ok parts →
  ∃ rest, parts = df_slice 0 1 df :: rest.
Proof.
  intros Hn. unfold np_array_split. rewrite Hn.
  destruct (py_int k) as [N|e]; cbn [rbind]; [|discriminate].
  destruct (N <=? 0) eqn:EN; [discriminate|]. apply Z.leb_gt in EN.
  intros H. inversion H; subst; clear H. change (Z.of_nat 1) with 1.
  destruct (decide (N = 1)) as [->|Hne].
  - exists []. reflexivity.
  - rewrite Z.div_small, Z.mod_small by lia.
    change (Z.to_nat 1) with 1%nat. change (Z.to_nat (0 + 1)) with 1%nat.
    cbn [replicate app split_sections]. eauto.
Qed.

(** X10: a single row that does not fit is retried for ever.  For a frame
    of one row whose document is oversized, with a ratio that passes the
    assertion, every split puts the row in its first part, the part fails
    as the whole frame did, and the same size is tried again: whatever the
    depth allowed, [make_bson_docs] ends in RecursionError. *)
Theorem X10_single_row_never_fits (L : Libraries) (uid : string)
    (df : DataFrame) (metadata : gmap string bson_value)
    (binary_size : Z) (ratio : pyfloat) :
  nrows df = 1%nat → df_wf df →
  _make_bson_doc uid df metadata = Err (InvalidBSON binary_size ratio) →
  let new_max_size := fdiv (Fin ((95 # 100) * inject_Z MAX_BSON_SIZE)) ratio in
  fgt new_max_size (Fin (inject_Z MAX_BSON_SIZE * (8 # 10))) = true →
  (∃ parts, split_dataframes df new_max_size = Ok parts) →
  ∀ depth max_size,
    (∃ parts, split_dataframes df max_size = Ok parts) →
    make_bson_docs depth uid df metadata max_size = Err RecursionError.
Proof.
  intros Hn Hwf Herr new_max_size Hgt Hnew depth.
  induction depth as [|depth IH]; intros max_size [parts Hparts]; [done|].
  cbn [make_bson_docs]. rewrite Hparts. cbn [rbind].
  unfold split_dataframes in Hparts.
  apply (np_array_split_single_row _ _ _ Hn) in Hparts as [rest ->].
  rewrite <- Hn, (df_slice_whole _ Hwf). cbn [docs_loop]. rewrite Herr.
  fold new_max_size. rewrite Hgt. by apply IH.
Qed.

Lemma X10_single_row_never_fits_witness :
  make_bson_docs (L:=Toy.bulky) 1000 "u" Examples.t_one_row ∅ default_max_size
  = Err RecursionError.
Proof.
  refine (X10_single_row_never_fits Toy.bulky "u" Examples.t_one_row ∅
            32000000 (fdiv (of_int 32000000) (of_int 32000000))
            eq_refl _ bulky_oversized _ _ 1000%nat default_max_size _).
  - repeat constructor.
  - reflexivity.
  - eexists. lazy. reflexivity.
  - eexists. lazy. reflexivity.
Defined.

Lemma Qceiling_unit (x : Q) : (0 < x)%Q → (x <= 1)%Q → Qceiling x = 1.
Proof.
  intros H0 H1.
  assert (Hle : Qceiling x ≤ 1).
  { apply Qceiling_resp_le in H1. exact H1. }
  assert (Hgt : 0 < Qceiling x).
  { rewrite Zlt_Qlt. eapply Qlt_le_trans; [exact H0|apply Qle_ceiling]. }
  lia.
Qed.

Lemma split_dataframes_one_part (L : Libraries) (df : DataFrame) (q : Q) :
  df_wf df → 0 < memory_usage df → (inject_Z (memory_usage df) <= q)%Q →
  split_dataframes df (Fin q) = Ok [df].
Proof.
  intros Hwf Hpos Hle. unfold split_dataframes, of_int.
  assert (Hq : (0 < q)%Q).
  { eapply Qlt_le_trans; [|exact Hle]. by rewrite <- (Zlt_Qlt 0). }
  cbn [fdiv]. destruct (Qeq_bool q 0) eqn:E.
  { apply Qeq_bool_iff in E. rewrite E in Hq. by apply Qlt_irrefl in Hq. }
  cbn [np_ceil]. rewrite Qceiling_unit.
  - unfold np_array_split. cbn [py_int rbind].
    change (if Qle_bool 0 (inject_Z 1) then Qfloor (inject_Z 1)
            else Qceiling (inject_Z 1)) with 1.
    change (1 <=? 0) with false. cbv iota.
    rewrite Z.div_1_r, Z.mod_1_r. change (Z.to_nat 0) with O.
    change (Z.to_nat (1 - 0)) with 1%nat. rewrite Nat2Z.id.
    cbn [replicate app split_sections]. by rewrite df_slice_whole.
  - apply Qlt_shift_div_l; [done|]. rewrite Qmult_0_l. by rewrite <- (Zlt_Qlt 0).
  - apply Qle_shift_div_r; [done|]. by rewrite Qmult_1_l.
Qed.

(** X11: a frame that fits in one part.  When the memory usage of the
    frame is positive and at most max_size, the frame is not divided:
    [make_bson_docs] returns exactly the document that [_make_bson_doc]
    builds for the whole frame, or raises what it raises (an oversized
    document apart, which starts the retry). *)
Theorem X11_single_part (L : Libraries) (depth : nat) (uid : string)
    (df : DataFrame) (metadata : gmap string bson_value) (q : Q) :
  df_wf df → 0 < memory_usage df → (inject_Z (memory_usage df) <= q)%Q →
  (∀ doc, _make_bson_doc uid df metadata = Ok doc →
          make_bson_docs (S depth) uid df metadata (Fin q) = Ok [doc]) ∧
  (∀ e, _make_bson_doc uid df metadata = Err e →
        (∀ b r, e ≠ InvalidBSON b r) →
        make_bson_docs (S depth) uid df metadata (Fin q) = Err e).
Proof.
  intros Hwf Hpos Hle. cbn [make_bson_docs].
  rewrite (split_dataframes_one_part L df q Hwf Hpos Hle). cbn [rbind docs_loop].
  split.
  - intros doc ->. reflexivity.
  - intros e -> He. destruct e; try reflexivity. by destruct (He binary_size compression_ratio).
Qed.

Lemma X11_single_part_witness :
  ∃ doc,
    _make_bson_doc (L:=Toy.libraries) "u" Examples.t_plain ∅ = Ok doc ∧
    make_bson_docs (L:=Toy.libraries) 1 "u" Examples.t_plain ∅ default_max_size
      = Ok [doc].
Proof.
  destruct (_make_bson_doc (L:=Toy.libraries) "u" Examples.t_plain ∅)
    as [doc|e] eqn:E; [|vm_compute in E; discriminate E].
  exists doc. split; [reflexivity|].
  refine (proj1 (X11_single_part Toy.libraries 0 "u" Examples.t_plain ∅
                   (inject_Z (MAX_BSON_SIZE * 4)) _ _ _) doc E).
  - repeat constructor.
  - reflexivity.
  - vm_compute. discriminate.
Defined.

(** ** Columns of objects and the assertion *)

(** X15: a column of Python objects is written and cannot be read.
    [_serialize_array] warns and serialises the array all the same, so
    [_make_bson_doc] returns a document when the sizes allow it; [np.load]
    is called without [allow_pickle] and refuses the array, so
    [_build_dataframe] raises on that document. *)
Theorem X15_object_column_unreadable (L : Libraries) (HC : CodecLaws L)
    (HN : NoPickle L) (uid : string) (df : DataFrame)
    (metadata : gmap string bson_value) (doc : BsonDoc) :
  _make_bson_doc uid df metadata = Ok doc →
  has_object_column df →
  _build_dataframe doc = Err DecodeError ∧
  Exists (λ kv, col_dtype kv.2 = object_dtype ∧
                _deserialize_array (col_data kv.2) = Err DecodeError)
         (doc_columns doc).
Proof.
  intros Hok Hobj. split; [by eapply _build_dataframe_object|].
  destruct (_make_bson_doc_Ok _ _ _ _ Hok) as (_ & first & rest & _ & ->).
  cbn [doc_columns]. apply prepared_object in Hobj.
  apply Exists_exists in Hobj as (nc & Hin & Hd).
  apply Exists_exists. exists (py_str nc.1, _make_bson_column nc.2). split.
  - unfold encode_columns. apply list_elem_of_fmap. by exists nc.
  - split; [exact Hd|]. by apply _deserialize_serialize_object.
Qed.

Lemma X15_object_column_unreadable_witness :
  ∃ doc,
    _make_bson_doc (L:=Toy.libraries) "u" Examples.t_object ∅ = Ok doc ∧
    _build_dataframe (L:=Toy.libraries) doc = Err DecodeError.
Proof.
  destruct (_make_bson_doc (L:=Toy.libraries) "u" Examples.t_object ∅)
    as [doc|e] eqn:E; [|vm_compute in E; discriminate E].
  exists doc. split; [reflexivity|].
  apply (X15_object_column_unreadable Toy.libraries _ _ _ _ _ _ E).
  apply Exists_cons_hd. reflexivity.
Defined.

Lemma swollen_oversized :
  _make_bson_doc (L:=Toy.swollen) "u" Examples.t_one_row ∅ =
  Err (InvalidBSON 32000000 (Fin (inject_Z 32000000 / inject_Z 16))).
Proof.
  rewrite _make_bson_doc_eq.
  - cbv zeta.
    assert (Hs : compressed_size (L:=Toy.swollen)
                   (prepared (L:=Toy.swollen) Examples.t_one_row) = 32000000).
    { unfold compressed_size.
      change (df_columns (prepared (L:=Toy.swollen) Examples.t_one_row))
        with [(Str "x", mk_ndarray "V16000000" [0])].
      unfold _make_bson_column, _serialize_array, sum_Z.
      cbn -[Toy.big_blob length Z.of_nat Z.add].
      rewrite big_blob_length. reflexivity. }
    rewrite Hs.
    assert (fgt (of_int 32000000) (Fin size_threshold) = true) as -> by reflexivity.
    reflexivity.
  - reflexivity.
  - rewrite prepared_column_names. apply NoDup_singleton.
Qed.

(** X13: data that grows when serialized cannot be stored.  When the first
    part that fails to build raises InvalidBSON with a finite ratio of at
    least 0.95 / 0.8 = 1.1875 (the blobs take at least 1.1875 times the
    memory of the part), the new size is not above MAX_BSON_SIZE * 0.8 and
    [make_bson_docs] raises AssertionError instead of retrying. *)
Theorem X13_growing_data_aborts (L : Libraries) (depth : nat) (uid : string)
    (df : DataFrame) (metadata : gmap string bson_value) (max_size : pyfloat)
    (pre post : list DataFrame) (sub : DataFrame) (built : list BsonDoc)
    (binary_size : Z) (ratio : Q) :
  split_dataframes df max_size = Ok (pre ++ sub :: post) →
  rmap (λ s, _make_bson_doc uid s metadata) pre = Ok built →
  _make_bson_doc uid sub metadata = Err (InvalidBSON binary_size (Fin ratio)) →
  (95 # 80 <= ratio)%Q →
  make_bson_docs (S depth) uid df metadata max_size = Err AssertionError.
Proof.
  intros Hsplit Hpre Hsub Hratio. cbn [make_bson_docs]. rewrite Hsplit.
  cbn [rbind]. rewrite (docs_loop_retry _ _ _ _ _ _ _ _ _ _ Hpre Hsub). cbv zeta.
  assert (Hpos : (0 < ratio)%Q) by (eapply Qlt_le_trans; [|exact Hratio]; reflexivity).
  cbn [fdiv]. destruct (Qeq_bool ratio 0) eqn:E.
  { apply Qeq_bool_iff in E. rewrite E in Hpos. by apply Qlt_irrefl in Hpos. }
  cbn [fgt]. unfold Qlt_bool.
  assert (Hle : ((95 # 100) * inject_Z MAX_BSON_SIZE / ratio
                 <= inject_Z MAX_BSON_SIZE * (8 # 10))%Q).
  { apply Qle_shift_div_r; [done|].
    apply Qle_trans with (inject_Z MAX_BSON_SIZE * (8 # 10) * (95 # 80))%Q.
    - vm_compute. discriminate.
    - apply Qmult_le_l; [reflexivity|exact Hratio]. }
  apply Qle_bool_iff in Hle. by rewrite Hle.
Qed.

Lemma X13_growing_data_aborts_witness :
  make_bson_docs (L:=Toy.swollen) 10 "u" Examples.t_one_row ∅ default_max_size
  = Err AssertionError.
Proof.
  refine (X13_growing_data_aborts Toy.swollen 9 "u" Examples.t_one_row ∅
            default_max_size [] [] Examples.t_one_row [] 32000000
            (inject_Z 32000000 / inject_Z 16) _ eq_refl swollen_oversized _).
  - lazy. reflexivity.
  - vm_compute. discriminate.
Defined.
